(** * daily_cam_report: a shallow embedding of [scripts/daily_cam_report.py]

    The script reads its configuration from the process environment, runs
    two Jira searches and one Zephyr Scale listing, tallies the execution
    statuses, renders an HTML report and sends it over SMTP.

    Conventions of the embedding.
    - A Python [str] is a [string]: the UTF-8 bytes of the text.  Where a
      builtin consults the Unicode tables ([str.strip], [int],
      [str.encode]) it is written out on ASCII text and taken from a value
      of [beyond] on any other text.
    - A decoded JSON document is a [pyval]; JSON numbers are the integers.
    - An exception is a value of [pyerror]; code that may raise returns a
      [result].
    - The network (HTTP and SMTP) is an oracle of type [network]; every call
      the script makes on it is recorded in a trace of [event]s. *)

From Stdlib Require Import String Ascii List ZArith Lia Bool Arith.
From Stdlib Require Import Numbers.DecimalString.
From Stdlib Require Import Sorting.Permutation.
Import ListNotations.

Open Scope list_scope.
Open Scope string_scope.

(** ** Python values, exceptions and results *)

Set Warnings "-register-all".

Inductive pyval : Type :=
| PNone
| PBool (b : bool)
| PInt (z : Z)
| PStr (s : string)
| PList (l : list pyval)
| PDict (d : list (string * pyval)).

Inductive pyerror : Type :=
| KeyError (key : string)
| ValueError
| AttributeError
| TypeError
| UnicodeEncodeError
| HTTPError
| SMTPException
| SMTPServerDisconnected.

Inductive result (A : Type) : Type :=
| Ok (a : A)
| Raise (e : pyerror).

Arguments Ok {A} a.
Arguments Raise {A} e.

Definition bind {A B : Type} (r : result A) (k : A -> result B) : result B :=
  match r with
  | Ok a => k a
  | Raise e => Raise e
  end.

Declare Scope py_scope.
Delimit Scope py_scope with py.
Notation "x <- e ;; k" := (bind e (fun x => k))
  (at level 100, e at next level, right associativity) : py_scope.
Open Scope py_scope.

Fixpoint mapM {A B : Type} (f : A -> result B) (l : list A) : result (list B) :=
  match l with
  | [] => Ok []
  | a :: l' => b <- f a ;; bs <- mapM f l' ;; Ok (b :: bs)
  end.

(** ** Builtins the script uses *)

Module Py.

Definition empty : string := EmptyString.

(** [bool(v)]: the falsy values are [None], [False], [0] and the empty
    string, list and dict. *)
Definition truthy (v : pyval) : bool :=
  match v with
  | PNone => false
  | PBool b => b
  | PInt z => negb (Z.eqb z 0)
  | PStr s => negb (String.eqb s empty)
  | PList l => match l with [] => false | _ :: _ => true end
  | PDict d => match d with [] => false | _ :: _ => true end
  end.

(** [a or b] *)
Definition or_ (a b : pyval) : pyval := if truthy a then a else b.

(** A dict is kept as its items; a key is looked up at its first item. *)
Fixpoint lookup (d : list (string * pyval)) (k : string) : option pyval :=
  match d with
  | [] => None
  | (k', v) :: d' => if String.eqb k' k then Some v else lookup d' k
  end.

(** [v.get(k, default)]: only a dict has the method. *)
Definition get (v : pyval) (k : string) (default : pyval) : result pyval :=
  match v with
  | PDict d => Ok (match lookup d k with Some x => x | None => default end)
  | _ => Raise AttributeError
  end.

(** [v[k]] with a string key. *)
Definition getitem (v : pyval) (k : string) : result pyval :=
  match v with
  | PDict d => match lookup d k with Some x => Ok x | None => Raise (KeyError k) end
  | _ => Raise TypeError
  end.

Fixpoint chars (s : string) : list pyval :=
  match s with
  | EmptyString => []
  | String c s' => PStr (String c EmptyString) :: chars s'
  end.

Fixpoint keys (seen : list string) (d : list (string * pyval)) : list pyval :=
  match d with
  | [] => []
  | (k, _) :: d' =>
      if existsb (String.eqb k) seen then keys seen d'
      else PStr k :: keys (k :: seen) d'
  end.

(** [iter(v)], run to the end: a list gives its elements, a dict its keys,
    a string its characters; the other values are not iterable. *)
Definition iter (v : pyval) : result (list pyval) :=
  match v with
  | PList l => Ok l
  | PDict d => Ok (keys [] d)
  | PStr s => Ok (chars s)
  | _ => Raise TypeError
  end.

(** [len(v)] *)
Definition len (v : pyval) : result nat :=
  match v with
  | PList l => Ok (List.length l)
  | PDict d => Ok (List.length (keys [] d))
  | PStr s => Ok (String.length s)
  | _ => Raise TypeError
  end.

(** [str.isspace] on one ASCII character. *)
Definition isspace (c : ascii) : bool :=
  let n := nat_of_ascii c in
  (Nat.leb 9 n && Nat.leb n 13) || (Nat.leb 28 n && Nat.leb n 32).

Fixpoint lstrip (s : string) : string :=
  match s with
  | EmptyString => EmptyString
  | String c s' => if isspace c then lstrip s' else s
  end.

Fixpoint rstrip (s : string) : string :=
  match s with
  | EmptyString => EmptyString
  | String c s' =>
      match rstrip s' with
      | EmptyString => if isspace c then EmptyString else String c EmptyString
      | r => String c r
      end
  end.

(** [s.strip()] of ASCII text. *)
Definition strip (s : string) : string := rstrip (lstrip s).

(** [s.split(sep)] for a one-character separator. *)
Fixpoint split (sep : ascii) (s : string) : list string :=
  match s with
  | EmptyString => [EmptyString]
  | String c s' =>
      if Ascii.eqb c sep then EmptyString :: split sep s'
      else match split sep s' with
           | [] => [String c EmptyString]
           | p :: ps => String c p :: ps
           end
  end.

(** [s.replace(old, new)] for a one-character [old]. *)
Fixpoint replace (old : ascii) (new : string) (s : string) : string :=
  match s with
  | EmptyString => EmptyString
  | String c s' =>
      if Ascii.eqb c old then new ++ replace old new s'
      else String c (replace old new s')
  end.

(** [sep.join(l)] for the empty separator. *)
Definition join (l : list string) : string := String.concat EmptyString l.

(** [str(n)] for an integer. *)
Definition str_of_Z (z : Z) : string := NilZero.string_of_int (Z.to_int z).
Definition str_of_nat (n : nat) : string := str_of_Z (Z.of_nat n).

End Py.

(** ** Text beyond ASCII

    On a character beyond ASCII [str.strip] and [int] consult the Unicode
    tables of the interpreter, and [str.encode] refuses the lone surrogate
    that stands for an undecodable byte of the environment.  These builtins
    are written out on ASCII text; on any other text they are the fields of
    a value of [beyond], which every statement leaves open. *)

Definition is_ascii_char (c : ascii) : bool := Nat.ltb (nat_of_ascii c) 128.

Fixpoint is_ascii (s : string) : bool :=
  match s with
  | EmptyString => true
  | String c s' => is_ascii_char c && is_ascii s'
  end.

Record beyond : Type := Beyond {
  strip_beyond : string -> string;
  int_beyond : string -> option Z;
  encodable : string -> bool
}.

(** [s.strip()] *)
Definition str_strip (u : beyond) (s : string) : string :=
  if is_ascii s then Py.strip s else strip_beyond u s.

(** [int(s)] in base ten.  On ASCII text the whitespace around the number
    is dropped (tab to carriage return, and the space), one sign is allowed,
    and the digits may be grouped by single underscores.  A text of more
    than 640 characters may meet the limit on the number of digits, which
    the interpreter is configured with: it is left open as well. *)
Module PyInt.

Definition is_space (c : ascii) : bool :=
  let n := nat_of_ascii c in
  (Nat.leb 9 n && Nat.leb n 13) || Nat.eqb n 32.

Fixpoint ltrim (s : string) : string :=
  match s with
  | EmptyString => EmptyString
  | String c s' => if is_space c then ltrim s' else s
  end.

Fixpoint rtrim (s : string) : string :=
  match s with
  | EmptyString => EmptyString
  | String c s' =>
      match rtrim s' with
      | EmptyString => if is_space c then EmptyString else String c EmptyString
      | r => String c r
      end
  end.

Definition trim (s : string) : string := rtrim (ltrim s).

Definition written_out (s : string) : bool :=
  is_ascii s && Nat.leb (String.length s) 640.

Definition is_digit (c : ascii) : bool :=
  let n := nat_of_ascii c in Nat.leb 48 n && Nat.leb n 57.

Definition digit_value (c : ascii) : Z := Z.of_nat (nat_of_ascii c) - 48.

Fixpoint digits (acc : Z) (after_digit : bool) (s : string) : option Z :=
  match s with
  | EmptyString => if after_digit then Some acc else None
  | String c s' =>
      if is_digit c then digits (10 * acc + digit_value c) true s'
      else if Ascii.eqb c "_"%char
           then (if after_digit then digits acc false s' else None)
           else None
  end.

Definition signed (s : string) : option Z :=
  match s with
  | String c s' =>
      if Ascii.eqb c "-"%char then option_map Z.opp (digits 0 false s')
      else if Ascii.eqb c "+"%char then digits 0 false s'
      else digits 0 false s
  | EmptyString => None
  end.

Definition int (u : beyond) (s : string) : result Z :=
  match (if written_out s then signed (trim s) else int_beyond u s) with
  | Some z => Ok z
  | None => Raise ValueError
  end.

End PyInt.

(** [urllib.parse.urlencode] of a dict of strings, through [quote_plus],
    which encodes the text as UTF-8 and escapes the bytes. *)
Module Url.

Definition unreserved (c : ascii) : bool :=
  let n := nat_of_ascii c in
  (Nat.leb 48 n && Nat.leb n 57) || (Nat.leb 65 n && Nat.leb n 90)
  || (Nat.leb 97 n && Nat.leb n 122)
  || Ascii.eqb c "_"%char || Ascii.eqb c "."%char
  || Ascii.eqb c "-"%char || Ascii.eqb c "~"%char.

Definition hex_digit (n : nat) : ascii :=
  if Nat.ltb n 10 then ascii_of_nat (48 + n) else ascii_of_nat (55 + n).

Definition percent (c : ascii) : string :=
  let n := nat_of_ascii c in
  String "%"%char
    (String (hex_digit (Nat.div n 16)) (String (hex_digit (Nat.modulo n 16)) EmptyString)).

Fixpoint quote_plus (s : string) : string :=
  match s with
  | EmptyString => EmptyString
  | String c s' =>
      if unreserved c then String c (quote_plus s')
      else if Ascii.eqb c " "%char then String "+"%char (quote_plus s')
      else percent c ++ quote_plus s'
  end.

(** [quote_plus(s)]: the encoding comes first, and raises on a text that
    has no UTF-8 encoding. *)
Definition quote_plus_str (u : beyond) (s : string) : result string :=
  if is_ascii s || encodable u s then Ok (quote_plus s)
  else Raise UnicodeEncodeError.

Definition urlencode (u : beyond) (qs : list (string * string)) : result string :=
  parts <- mapM (fun kv =>
                   k <- quote_plus_str u (fst kv) ;;
                   v <- quote_plus_str u (snd kv) ;;
                   Ok (k ++ "=" ++ v)) qs ;;
  Ok (String.concat "&" parts).

End Url.

(** ** [collections.Counter]

    The keys of a Counter are hashable values compared with [==], under
    which [True == 1] and [False == 0]: a key is kept as its class, [hkey].
    Lists and dicts are not hashable.  The items are in insertion order. *)

Inductive hkey : Type :=
| KNone
| KNum (z : Z)
| KStr (s : string).

Definition hkey_eqb (a b : hkey) : bool :=
  match a, b with
  | KNone, KNone => true
  | KNum x, KNum y => Z.eqb x y
  | KStr x, KStr y => String.eqb x y
  | _, _ => false
  end.

Definition hash_key (v : pyval) : result hkey :=
  match v with
  | PNone => Ok KNone
  | PBool b => Ok (KNum (if b then 1 else 0))
  | PInt z => Ok (KNum z)
  | PStr s => Ok (KStr s)
  | PList _ | PDict _ => Raise TypeError
  end.

Module Counter.

Definition t : Type := list (hkey * nat).

(** [c[k] = c.get(k, 0) + 1] *)
Fixpoint incr (k : hkey) (c : t) : t :=
  match c with
  | [] => [(k, 1)]
  | (k', n) :: c' =>
      if hkey_eqb k' k then (k', S n) :: c' else (k', n) :: incr k c'
  end.

(** [c.get(k, 0)] *)
Fixpoint get (c : t) (k : hkey) : nat :=
  match c with
  | [] => 0
  | (k', n) :: c' => if hkey_eqb k' k then n else get c' k
  end.

(** [sum(c.values())] *)
Definition total (c : t) : nat := list_sum (map snd c).

End Counter.

(** ** The process environment and the configuration (lines 12-33) *)

Definition environ : Type := list (string * string).

Fixpoint environ_lookup (env : environ) (k : string) : option string :=
  match env with
  | [] => None
  | (k', v) :: env' => if String.eqb k' k then Some v else environ_lookup env' k
  end.

(** [os.environ[k]] *)
Definition environ_getitem (env : environ) (k : string) : result string :=
  match environ_lookup env k with
  | Some v => Ok v
  | None => Raise (KeyError k)
  end.

(** [os.environ.get(k, default)] *)
Definition environ_get (env : environ) (k default : string) : string :=
  match environ_lookup env k with
  | Some v => v
  | None => default
  end.

Record config : Type := Config {
  JIRA_BASE : string;
  JIRA_EMAIL : string;
  JIRA_TOKEN : string;
  PROJECT_KEY : string;
  Z_TOKEN : string;
  SMTP_HOST : string;
  SMTP_PORT : Z;
  SMTP_USER : string;
  SMTP_PASS : string;
  MAIL_TO : string;
  MAIL_FROM : string
}.

Definition Z_BASE : string := "https://api.zephyrscale.smartbear.com/v2".

(** The module-level reads, in the order of the source. *)
Definition load_config (u : beyond) (env : environ) : result config :=
  jira_base <- environ_getitem env "JIRA_BASE" ;;
  jira_email <- environ_getitem env "JIRA_EMAIL" ;;
  jira_token <- environ_getitem env "JIRA_API_TOKEN" ;;
  let project_key := environ_get env "PROJECT_KEY" "CAM" in
  z_token <- environ_getitem env "ZEPHYR_SCALE_TOKEN" ;;
  smtp_host <- environ_getitem env "SMTP_HOST" ;;
  smtp_port <- PyInt.int u (environ_get env "SMTP_PORT" "587") ;;
  smtp_user <- environ_getitem env "SMTP_USER" ;;
  smtp_pass <- environ_getitem env "SMTP_PASS" ;;
  mail_to <- environ_getitem env "MAIL_TO" ;;
  let mail_from := environ_get env "MAIL_FROM" smtp_user in
  Ok (Config jira_base jira_email jira_token project_key z_token
             smtp_host smtp_port smtp_user smtp_pass mail_to mail_from).

(** The keys read with [os.environ[...]]. *)
Definition required_keys : list string :=
  ["JIRA_BASE"; "JIRA_EMAIL"; "JIRA_API_TOKEN"; "ZEPHYR_SCALE_TOKEN";
   "SMTP_HOST"; "SMTP_USER"; "SMTP_PASS"; "MAIL_TO"].

(** ** The network and the trace of calls *)

Record message : Type := Message {
  msg_Subject : string;
  msg_From : string;
  msg_To : list string;
  msg_content : string;
  msg_alternative : string
}.

Inductive event : Type :=
| HttpPost (url : string) (auth : string * string) (json : pyval)
| HttpGet (url : string) (headers : list (string * string))
| SmtpConnect (host : string) (port : Z)
| SmtpStartTls
| SmtpLogin (user password : string)
| SmtpSendMessage (msg : message)
| SmtpQuit.

(** The remote side: what a call answers after the calls made so far.  For
    an HTTP call the answer is the decoded JSON body ([resp.json()]) or the
    exception of the transport, of [raise_for_status] or of the decoder. *)
Definition network : Type := list event -> event -> result pyval.

Definition IO (A : Type) : Type := network -> list event -> result A * list event.

Definition ret {A : Type} (a : A) : IO A := fun _ tr => (Ok a, tr).

Definition lift {A : Type} (r : result A) : IO A := fun _ tr => (r, tr).

Definition iobind {A B : Type} (m : IO A) (k : A -> IO B) : IO B :=
  fun net tr =>
    match m net tr with
    | (Ok a, tr') => k a net tr'
    | (Raise e, tr') => (Raise e, tr')
    end.

Notation "x <~ e ;; k" := (iobind e (fun x => k))
  (at level 100, e at next level, right associativity) : py_scope.

(** One call on the network: it is recorded, then answered. *)
Definition call (ev : event) : IO pyval :=
  fun net tr => (net tr ev, (tr ++ [ev])%list).

Definition is_disconnected (e : pyerror) : bool :=
  match e with
  | SMTPServerDisconnected => true
  | _ => false
  end.

(** [with smtplib.SMTP(...) as server: body]: the session is closed with
    QUIT on both exits of the body.  [SMTP.__exit__] passes over a server
    that has disconnected and lets any other exception of QUIT out. *)
Definition with_smtp {A : Type} (host : string) (port : Z) (body : IO A) : IO A :=
  fun net tr =>
    match call (SmtpConnect host port) net tr with
    | (Raise e, tr1) => (Raise e, tr1)
    | (Ok _, tr1) =>
        match body net tr1 with
        | (r, tr2) =>
            match call SmtpQuit net tr2 with
            | (Raise e, tr3) =>
                if is_disconnected e then (r, tr3) else (Raise e, tr3)
            | (Ok _, tr3) => (r, tr3)
            end
        end
    end.

(** The date that the clock gives, and [str] of it, which is
    [date.isoformat]. *)
Record date : Type := Date {
  year : nat;
  month : nat;
  day : nat
}.

Fixpoint zeros (n : nat) : string :=
  match n with
  | O => EmptyString
  | S n' => String "0"%char (zeros n')
  end.

Definition zero_padded (width n : nat) : string :=
  let digits := Py.str_of_nat n in
  zeros (width - String.length digits) ++ digits.

Definition isoformat (d : date) : string :=
  zero_padded 4 (year d) ++ "-" ++ zero_padded 2 (month d)
  ++ "-" ++ zero_padded 2 (day d).

(** ** The script

    A function that reads a module global takes it as its first argument. *)

Section Script.

(** [repr] of a list or of a dict, which [str] and an f-string field
    fall back on; its text is left open. *)
Variable repr_container : pyval -> string.

(** The builtins on text beyond ASCII. *)
Variable u : beyond.

(** [str(v)], which is also the text of the field [{v}] of an f-string. *)
Definition py_str (v : pyval) : string :=
  match v with
  | PNone => "None"
  | PBool true => "True"
  | PBool false => "False"
  | PInt z => Py.str_of_Z z
  | PStr s => s
  | PList _ | PDict _ => repr_container v
  end.

(** [v.replace(old, new)]: a method of [str] only. *)
Definition replace_method (v : pyval) (old : ascii) (new : string) : result pyval :=
  match v with
  | PStr s => Ok (PStr (Py.replace old new s))
  | _ => Raise AttributeError
  end.

(** *** Helpers (lines 43-111) *)

Definition jira_search (JIRA_BASE JIRA_EMAIL JIRA_TOKEN : string)
    (jql fields : string) : IO pyval :=
  let url := JIRA_BASE ++ "/rest/api/3/search" in
  data <~ call (HttpPost url (JIRA_EMAIL, JIRA_TOKEN)
                 (PDict [("jql", PStr jql); ("maxResults", PInt 1000);
                         ("fields", PStr fields)])) ;;
  lift (Py.get data "issues" (PList [])).

(** The last two lines of [zephyr_get_test_executions]: from the decoded
    body to the value returned. *)
Definition zephyr_executions_of (data : pyval) : result pyval :=
  Py.get data "executions" data.

Definition zephyr_get_test_executions (Z_TOKEN : string)
    (project_key start_iso end_iso : string) (limit : Z) : IO pyval :=
  let qs := [("projectKey", project_key); ("from", start_iso);
             ("to", end_iso); ("maxResults", Py.str_of_Z limit)] in
  query <~ lift (Url.urlencode u qs) ;;
  let url := Z_BASE ++ "/testexecutions?" ++ query in
  let headers := [("Authorization", "Bearer " ++ Z_TOKEN);
                  ("Accept", "application/json")] in
  data <~ call (HttpGet url headers) ;;
  lift (zephyr_executions_of data).

Definition html_link (href text : string) : string :=
  "<a href='" ++ href ++ "'>" ++ text ++ "</a>".

Definition em_dash : string := "—".

Definition jira_row (JIRA_BASE : string) (issue : pyval) : result (list pyval) :=
  f <- Py.getitem issue "fields" ;;
  key <- Py.getitem issue "key" ;;
  s <- Py.get f "summary" PNone ;;
  summary <- replace_method (Py.or_ s (PStr Py.empty)) "<"%char "&lt;" ;;
  p <- Py.get f "priority" (PDict []) ;;
  priority <- Py.get p "name" (PStr Py.empty) ;;
  st <- Py.get f "status" (PDict []) ;;
  status <- Py.get st "name" (PStr Py.empty) ;;
  a <- Py.get f "assignee" (PDict []) ;;
  assignee <- Py.get a "displayName" (PStr em_dash) ;;
  Ok [PStr (html_link (JIRA_BASE ++ "/browse/" ++ py_str key) (py_str key));
      summary; priority; status; assignee].

(** The header cells and the body rows that [to_table] joins. *)
Definition th_cells (headers : list pyval) : list string :=
  map (fun h => "<th>" ++ py_str h ++ "</th>") headers.

Definition tr_row (row : list pyval) : string :=
  "<tr>" ++ Py.join (map (fun cell => "<td>" ++ py_str cell ++ "</td>") row) ++ "</tr>".

Definition tr_rows (rows : list (list pyval)) : list string := map tr_row rows.

Definition to_table (rows : list (list pyval)) (headers : list pyval) : string :=
  let th := Py.join (th_cells headers) in
  let tr := Py.join (tr_rows rows) in
  "<table border='1' cellspacing='0' cellpadding='6'>"
  ++ "<thead><tr>" ++ th ++ "</tr></thead>"
  ++ "<tbody>" ++ tr ++ "</tbody>"
  ++ "</table>".

(** *** The queries and the tally (lines 116-142) *)

Definition jql_defects_today (PROJECT_KEY : string) : string :=
  "project = " ++ PROJECT_KEY ++ " "
  ++ "AND issuetype = Bug "
  ++ "AND created >= startOfDay() "
  ++ "ORDER BY priority DESC".

Definition jql_open_blockers (PROJECT_KEY : string) : string :=
  "project = " ++ PROJECT_KEY ++ " "
  ++ "AND issuetype = Bug "
  ++ "AND priority in (Blocker, Highest) "
  ++ "AND statusCategory != Done".

(** [e.get("status") or "Unknown"] *)
Definition status_label (e : pyval) : result pyval :=
  s <- Py.get e "status" PNone ;;
  Ok (Py.or_ s (PStr "Unknown")).

(** [Counter(g)] consumes the generator: each element is labelled, then
    counted, before the next one is looked at. *)
Fixpoint count_labels (c : Counter.t) (es : list pyval) : result Counter.t :=
  match es with
  | [] => Ok c
  | e :: es' =>
      l <- status_label e ;;
      k <- hash_key l ;;
      count_labels (Counter.incr k c) es'
  end.

Definition status_counts (executions : pyval) : result Counter.t :=
  es <- Py.iter executions ;;
  count_labels [] es.

(** *** The report (lines 144-177) *)

Definition newline : string := String (ascii_of_nat 10) EmptyString.
Definition dquote : string := String (ascii_of_nat 34) EmptyString.

Definition unlines (ls : list string) : string :=
  Py.join (map (fun l => l ++ newline) ls).

Definition table_headers : list pyval :=
  [PStr "Key"; PStr "Summary"; PStr "Priority"; PStr "Status"; PStr "Assignee"].

(** [[jira_row(i) for i in issues]] *)
Definition jira_rows (JIRA_BASE : string) (issues : pyval) : result (list (list pyval)) :=
  items <- Py.iter issues ;;
  mapM (jira_row JIRA_BASE) items.

Definition count_of (c : Counter.t) (label : string) : string :=
  Py.str_of_nat (Counter.get c (KStr label)).

(** The f-string [html_body]; its fields are evaluated from left to
    right. *)
Definition html_body (cfg : config) (today_str start_iso end_iso : string)
    (executions : pyval) (counts : Counter.t)
    (defects_today open_blockers : pyval) : result string :=
  n_executions <- Py.len executions ;;
  n_defects <- Py.len defects_today ;;
  defect_rows <- jira_rows (JIRA_BASE cfg) defects_today ;;
  n_blockers <- Py.len open_blockers ;;
  blocker_rows <- jira_rows (JIRA_BASE cfg) open_blockers ;;
  Ok (unlines
    [ Py.empty
    ; "<html>"
    ; "  <body>"
    ; "    <h2>Daily QA Report — " ++ today_str
        ++ " (Project: " ++ PROJECT_KEY cfg ++ ")</h2>"
    ; Py.empty
    ; "    <h3>Zephyr Scale — Test Executions Today</h3>"
    ; "    <ul>"
    ; "      <li>Total executed today: " ++ Py.str_of_nat n_executions ++ "</li>"
    ; "      <li>Pass: " ++ count_of counts "Pass" ++ "</li>"
    ; "      <li>Fail: " ++ count_of counts "Fail" ++ "</li>"
    ; "      <li>Blocked: " ++ count_of counts "Blocked" ++ "</li>"
    ; "      <li>Not Executed: " ++ count_of counts "Not Executed" ++ "</li>"
    ; "      <li>Other/Unknown: " ++ count_of counts "Unknown" ++ "</li>"
    ; "    </ul>"
    ; Py.empty
    ; "    <h3>Defects Created Today (Jira – CAM): "
        ++ Py.str_of_nat n_defects ++ "</h3>"
    ; "    " ++ to_table defect_rows table_headers
    ; Py.empty
    ; "    <h3>Open Blockers (Priority Blocker/Highest): "
        ++ Py.str_of_nat n_blockers ++ "</h3>"
    ; "    " ++ to_table blocker_rows table_headers
    ; Py.empty
    ; "    <p style=" ++ dquote ++ "font-size: 12px; color: #666;" ++ dquote ++ ">"
    ; "      Generated automatically from Jira Cloud (" ++ JIRA_BASE cfg ++ ")"
    ; "      and Zephyr Scale Cloud APIs.<br/>"
    ; "      Window: " ++ start_iso ++ " to " ++ end_iso ++ " (UTC).<br/>"
    ; "      Sent via Gmail SMTP as " ++ SMTP_USER cfg ++ "."
    ; "    </p>"
    ; "  </body>"
    ; "</html>" ]).

(** *** The message and its delivery (lines 181-192) *)

Definition subject (today_str : string) : string :=
  "Daily QA Report — " ++ today_str ++ " (CAM)".

(** [[addr.strip() for addr in MAIL_TO.split(",")]] *)
Definition recipients (MAIL_TO : string) : list string :=
  map (str_strip u) (Py.split ","%char MAIL_TO).

(** The message as lines 181-187 fill it in.  The assignments of From and
    To run the address parser of the email package, which may refuse a
    malformed sender before the session is opened; [compose] is the message
    when they pass. *)
Definition compose (cfg : config) (today_str html : string) : message :=
  {| msg_Subject := subject today_str;
     msg_From := MAIL_FROM cfg;
     msg_To := recipients (MAIL_TO cfg);
     msg_content :=
       "This email contains HTML content. Please use an HTML-capable client.";
     msg_alternative := html |}.

Definition send (cfg : config) (msg : message) : IO unit :=
  with_smtp (SMTP_HOST cfg) (SMTP_PORT cfg)
    (_ <~ call SmtpStartTls ;;
     _ <~ call (SmtpLogin (SMTP_USER cfg) (SMTP_PASS cfg)) ;;
     _ <~ call (SmtpSendMessage msg) ;;
     ret tt).

(** *** The whole module, top to bottom

    [today_utc] is the UTC date read from the clock. *)
Definition issue_fields : string := "key,summary,priority,status,assignee".

Definition main (env : environ) (today_utc : date) : IO unit :=
  cfg <~ lift (load_config u env) ;;
  let start_iso := isoformat today_utc ++ "T00:00:00Z" in
  let end_iso := isoformat today_utc ++ "T23:59:59Z" in
  defects_today <~ jira_search (JIRA_BASE cfg) (JIRA_EMAIL cfg) (JIRA_TOKEN cfg)
                     (jql_defects_today (PROJECT_KEY cfg)) issue_fields ;;
  open_blockers <~ jira_search (JIRA_BASE cfg) (JIRA_EMAIL cfg) (JIRA_TOKEN cfg)
                     (jql_open_blockers (PROJECT_KEY cfg)) issue_fields ;;
  executions <~ zephyr_get_test_executions (Z_TOKEN cfg) (PROJECT_KEY cfg)
                  start_iso end_iso 1000 ;;
  counts <~ lift (status_counts executions) ;;
  let today_str := isoformat today_utc in
  html <~ lift (html_body cfg today_str start_iso end_iso executions counts
                  defects_today open_blockers) ;;
  send cfg (compose cfg today_str html).

(** A run starts with no call made. *)
Definition run (env : environ) (today_utc : date) (net : network)
    : result unit * list event :=
  main env today_utc net [].

End Script.

(** ** Predicates used in the statements *)

Fixpoint all_space (s : string) : bool :=
  match s with
  | EmptyString => true
  | String c s' => Py.isspace c && all_space s'
  end.

Fixpoint has_char (c : ascii) (s : string) : bool :=
  match s with
  | EmptyString => false
  | String c' s' => Ascii.eqb c' c || has_char c s'
  end.

Definition starts_with_space (s : string) : bool :=
  match s with
  | EmptyString => false
  | String c _ => Py.isspace c
  end.

Fixpoint ends_with_space (s : string) : bool :=
  match s with
  | EmptyString => false
  | String c EmptyString => Py.isspace c
  | String _ s' => ends_with_space s'
  end.

Fixpoint count_char (c : ascii) (s : string) : nat :=
  match s with
  | EmptyString => 0
  | String c' s' => (if Ascii.eqb c' c then 1 else 0) + count_char c s'
  end.

(** [needle in haystack] *)
Fixpoint contains (needle haystack : string) : bool :=
  String.prefix needle haystack
  || match haystack with
     | EmptyString => false
     | String _ h' => contains needle h'
     end.

(** An execution record, as the data model has it: a JSON object whose
    status, when present, is null or a scalar. *)
Definition is_execution_record (e : pyval) : bool :=
  match e with
  | PDict d =>
      match Py.lookup d "status" with
      | None => true
      | Some (PList _) | Some (PDict _) => false
      | Some _ => true
      end
  | _ => false
  end.

(** The status of a record is missing (absent or null) or the empty
    string. *)
Definition status_missing_or_empty (d : list (string * pyval)) : bool :=
  match Py.lookup d "status" with
  | None => true
  | Some PNone => true
  | Some (PStr s) => String.eqb s EmptyString
  | Some _ => false
  end.

(** The record [e] is tallied under the label [k]. *)
Definition labelled (k : hkey) (e : pyval) : bool :=
  match (l <- status_label e ;; hash_key l) with
  | Ok k' => hkey_eqb k' k
  | Raise _ => false
  end.

(** The text of the summary of an issue: empty when the field is absent,
    null or empty. *)
Definition summary_text (issue : pyval) : string :=
  match Py.getitem issue "fields" with
  | Ok (PDict f) =>
      match Py.lookup f "summary" with
      | Some (PStr s) => s
      | _ => EmptyString
      end
  | _ => EmptyString
  end.

Definition object_or_absent (f : list (string * pyval)) (k : string) : bool :=
  match Py.lookup f k with
  | None | Some (PDict _) => true
  | Some _ => false
  end.

(** An issue that [jira_row] renders: it has a key and fields, the summary
    is a string, null or absent, and priority, status and assignee are
    objects or absent. *)
Definition is_issue_record (issue : pyval) : bool :=
  match Py.getitem issue "fields", Py.getitem issue "key" with
  | Ok (PDict f), Ok _ =>
      match Py.lookup f "summary" with
      | None | Some PNone | Some (PStr _) => true
      | Some _ => false
      end
      && object_or_absent f "priority"
      && object_or_absent f "status"
      && object_or_absent f "assignee"
  | _, _ => false
  end.

(** The first required key, in the order of the reads, that the
    environment lacks. *)
Definition first_missing (env : environ) : option string :=
  find (fun k => match environ_lookup env k with None => true | Some _ => false end)
       required_keys.

Definition port_unreadable (u : beyond) (env : environ) : bool :=
  match PyInt.int u (environ_get env "SMTP_PORT" "587") with
  | Ok _ => false
  | Raise _ => true
  end.

(** The required keys read after [SMTP_PORT]. *)
Definition read_after_port (k : string) : bool :=
  existsb (String.eqb k) ["SMTP_USER"; "SMTP_PASS"; "MAIL_TO"].

Definition config_failure (u : beyond) (env : environ) (k : string) : pyerror :=
  if port_unreadable u env && read_after_port k then ValueError else KeyError k.

(** *** Reading a rendered table back

    The tags of an HTML text, in order: each run from a [<] to the next
    [>].  The second component is the tag left open at the end, if any. *)
Fixpoint scan (tag : option string) (s : string) : list string * option string :=
  match s with
  | EmptyString => ([], tag)
  | String c s' =>
      match tag with
      | None =>
          if Ascii.eqb c "<"%char then scan (Some "<") s' else scan None s'
      | Some t =>
          if Ascii.eqb c ">"%char
          then let (ts, e) := scan None s' in ((t ++ ">") :: ts, e)
          else scan (Some (t ++ String c EmptyString)) s'
      end
  end.

Definition tags (s : string) : list string := fst (scan None s).

Definition balanced (s : string) : bool :=
  match snd (scan None s) with
  | None => true
  | Some _ => false
  end.

Definition count_tag (t : string) (s : string) : nat :=
  count_occ string_dec (tags s) t.

(** A cell text that leaves no tag open and opens no row of its own. *)
Definition cell_text_ok (t : string) : bool :=
  balanced t && Nat.eqb (count_tag "<tr>" t) 0.

(** *** The calls of a run, as the source writes them

    The request of a search (lines 45-50), the query and the request of
    the listing (lines 62-73), and the calls of the session (lines
    189-192). *)
Definition search_request (cfg : config) (jql : string) : event :=
  HttpPost (JIRA_BASE cfg ++ "/rest/api/3/search") (JIRA_EMAIL cfg, JIRA_TOKEN cfg)
    (PDict [("jql", PStr jql); ("maxResults", PInt 1000);
            ("fields", PStr "key,summary,priority,status,assignee")]).

Definition listing_query (u : beyond) (cfg : config) (today : date) : result string :=
  Url.urlencode u
    [("projectKey", PROJECT_KEY cfg); ("from", isoformat today ++ "T00:00:00Z");
     ("to", isoformat today ++ "T23:59:59Z"); ("maxResults", Py.str_of_Z 1000)].

Definition listing_request (cfg : config) (query : string) : event :=
  HttpGet (Z_BASE ++ "/testexecutions?" ++ query)
    [("Authorization", "Bearer " ++ Z_TOKEN cfg); ("Accept", "application/json")].

(** The requests in the order of the source: the search for the defects
    of today, the search for the open blockers, then the listing when its
    query can be written. *)
Definition requests (u : beyond) (cfg : config) (today : date) : list event :=
  search_request cfg (jql_defects_today (PROJECT_KEY cfg))
  :: search_request cfg (jql_open_blockers (PROJECT_KEY cfg))
  :: match listing_query u cfg today with
     | Ok query => [listing_request cfg query]
     | Raise _ => []
     end.

(** The session that got as far as [m] calls after its connection: the
    connection alone when it failed, else the first [m] of STARTTLS, login
    and send, and QUIT. *)
Definition session_calls (cfg : config) (msg : message) (m : nat) : list event :=
  SmtpConnect (SMTP_HOST cfg) (SMTP_PORT cfg)
  :: match m with
     | O => []
     | S _ =>
         (firstn m [SmtpStartTls; SmtpLogin (SMTP_USER cfg) (SMTP_PASS cfg);
                    SmtpSendMessage msg]
          ++ [SmtpQuit])%list
     end.

(** The query that [urlencode] writes for pairs it can encode. *)
Definition quoted_query (qs : list (string * string)) : string :=
  String.concat "&"
    (map (fun kv => Url.quote_plus (fst kv) ++ "=" ++ Url.quote_plus (snd kv)) qs).

(** *** Sample inputs *)

(** One way to fill in the builtins beyond ASCII. *)
Definition sample_beyond : beyond :=
  {| strip_beyond := fun s => s;
     int_beyond := fun _ => None;
     encodable := fun _ => true |}.

Definition sample_date : date := Date 2024 1 2.

Definition sample_env : environ :=
  [("JIRA_BASE", "https://tracker.example"); ("JIRA_EMAIL", "qa@example.com");
   ("JIRA_API_TOKEN", "jira-token"); ("ZEPHYR_SCALE_TOKEN", "zephyr-token");
   ("SMTP_HOST", "smtp.example.com"); ("SMTP_USER", "qa@example.com");
   ("SMTP_PASS", "app-password"); ("MAIL_TO", "a@x.com, b@y.com,c@z.com")].

(** [SMTP_USER] and the keys after it are absent, and the port is not a
    number. *)
Definition env_bad_port : environ :=
  [("JIRA_BASE", "https://tracker.example"); ("JIRA_EMAIL", "qa@example.com");
   ("JIRA_API_TOKEN", "jira-token"); ("ZEPHYR_SCALE_TOKEN", "zephyr-token");
   ("SMTP_HOST", "smtp.example.com"); ("SMTP_PORT", "abc")].

(** Only the recipient list is absent. *)
Definition env_no_recipients : environ :=
  [("JIRA_BASE", "https://tracker.example"); ("JIRA_EMAIL", "qa@example.com");
   ("JIRA_API_TOKEN", "jira-token"); ("ZEPHYR_SCALE_TOKEN", "zephyr-token");
   ("SMTP_HOST", "smtp.example.com"); ("SMTP_USER", "qa@example.com");
   ("SMTP_PASS", "app-password")].

Definition env_other_project : environ := ("PROJECT_KEY", "XYZ") :: sample_env.

Definition sample_issue (assignee : list (string * pyval)) : pyval :=
  PDict [("key", PStr "CAM-7");
         ("fields", PDict ([("summary", PStr "a < b");
                            ("priority", PDict [("name", PStr "High")]);
                            ("status", PDict [("name", PStr "Open")])]
                           ++ assignee)%list)].

(** Jira sends [assignee: null] for an unassigned issue. *)
Definition issue_assignee_null : pyval := sample_issue [("assignee", PNone)].
Definition issue_assignee_absent : pyval := sample_issue [].

Definition sample_executions : list pyval :=
  [PDict [("status", PStr "Pass")]; PDict [("status", PStr "Pass")];
   PDict [("status", PStr "Fail")]; PDict [("status", PNone)]].

Definition sample_config (mail_to : string) : config :=
  Config "https://tracker.example" "qa@example.com" "jira-token" "CAM"
         "zephyr-token" "smtp.example.com" 587 "qa@example.com" "app-password"
         mail_to "qa@example.com".

(** Two rendered rows; the first cell of each is a link. *)
Definition sample_rows : list (list pyval) :=
  [[PStr "<a href='https://tracker.example/browse/CAM-7'>CAM-7</a>";
    PStr "a &lt; b"; PStr "High"; PStr "Open"; PStr "—"];
   [PStr "<a href='https://tracker.example/browse/CAM-9'>CAM-9</a>";
    PStr "c"; PStr "Low"; PStr "Done"; PStr "Ann"]].

(** A record with an empty status. *)
Definition sample_blank : list (string * pyval) :=
  [("id", PInt 4); ("status", PStr EmptyString)].

(** A service that answers the listing with the given body, and every
    search with no issue. *)
Definition listing_network (body : pyval) : network :=
  fun _ ev =>
    match ev with
    | HttpPost _ _ _ => Ok (PDict [("issues", PList [])])
    | HttpGet _ _ => Ok body
    | _ => Ok PNone
    end.

(** *** Predicates for the further properties *)

Definition is_http (ev : event) : bool :=
  match ev with
  | HttpPost _ _ _ | HttpGet _ _ => true
  | _ => false
  end.

Definition is_smtp (ev : event) : bool := negb (is_http ev).

Definition is_send (ev : event) : bool :=
  match ev with
  | SmtpSendMessage _ => true
  | _ => false
  end.

Definition is_starttls (ev : event) : bool :=
  match ev with
  | SmtpStartTls => true
  | _ => false
  end.

Definition is_login (ev : event) : bool :=
  match ev with
  | SmtpLogin _ _ => true
  | _ => false
  end.

Definition is_post (ev : event) : bool :=
  match ev with
  | HttpPost _ _ _ => true
  | _ => false
  end.

Definition is_get (ev : event) : bool :=
  match ev with
  | HttpGet _ _ => true
  | _ => false
  end.

(** A service that answers every search with no issue, the listing with
    the sample executions, and accepts every call of the mail session. *)
Definition sample_network : network :=
  listing_network (PDict [("executions", PList sample_executions)]).

(** The same service with a mail server that refuses the login. *)
Definition login_refused_network : network :=
  fun tr ev =>
    match ev with
    | SmtpLogin _ _ => Raise SMTPException
    | _ => sample_network tr ev
    end.

(** Every key is set, and the port to a text that is no number. *)
Definition env_port_text : environ := ("SMTP_PORT", "smtp") :: sample_env.

(** The five labels that the report lists by name (lines 154-158), and the
    sum of the counts it prints for them. *)
Definition surfaced_labels : list string :=
  ["Pass"; "Fail"; "Blocked"; "Not Executed"; "Unknown"].

Definition listed (counts : Counter.t) : nat :=
  list_sum (map (fun l => Counter.get counts (KStr l)) surfaced_labels).

Definition has_other_label (e : pyval) : bool :=
  negb (existsb (fun l => labelled (KStr l) e) surfaced_labels).

(** The exception that the tally raises on the element [e], if any: an
    element that is no object has no [get]; a status that is a non-empty
    list or object is not hashable. *)
Definition tally_error (e : pyval) : option pyerror :=
  match e with
  | PDict d =>
      match Py.lookup d "status" with
      | Some (PList (_ :: _)) | Some (PDict (_ :: _)) => Some TypeError
      | _ => None
      end
  | _ => Some AttributeError
  end.

(** The value of [fields[field][key]] of an issue, [default] when the
    field or the key is absent. *)
Definition nested (issue : pyval) (field key : string) (default : pyval) : pyval :=
  match Py.getitem issue "fields" with
  | Ok (PDict f) =>
      match Py.lookup f field with
      | Some (PDict o) =>
          match Py.lookup o key with
          | Some v => v
          | None => default
          end
      | _ => default
      end
  | _ => default
  end.

Definition is_object (v : pyval) : bool :=
  match v with
  | PDict _ => true
  | _ => false
  end.

(** An issue whose assignee is null. *)
Definition unassigned (issue : pyval) : bool :=
  match Py.getitem issue "fields" with
  | Ok (PDict f) =>
      match Py.lookup f "assignee" with
      | Some PNone => true
      | _ => false
      end
  | _ => false
  end.

(** An issue whose status name holds markup. *)
Definition issue_with_markup : pyval :=
  PDict [("key", PStr "CAM-8");
         ("fields", PDict [("summary", PStr "x");
                           ("status", PDict [("name", PStr "<b>Open</b>")]);
                           ("assignee", PDict [("displayName", PStr "Ann & Bob")])])].

(** A service whose searches list one unassigned issue. *)
Definition unassigned_network : network :=
  fun tr ev =>
    match ev with
    | HttpPost _ _ _ => Ok (PDict [("issues", PList [issue_assignee_null])])
    | _ => sample_network tr ev
    end.

(** *** Shapes of tables, addresses and queries *)

(** A cell text without markup. *)
Definition plain (t : string) : bool := negb (has_char "<"%char t).

(** The tags of a row of [n] cells, and of a table of [n_headers] header
    cells and rows of the given lengths. *)
Definition row_skeleton (n : nat) : list string :=
  ("<tr>" :: List.concat (repeat ["<td>"; "</td>"] n) ++ ["</tr>"])%list.

Definition table_skeleton (n_headers : nat) (row_lengths : list nat) : list string :=
  (["<table border='1' cellspacing='0' cellpadding='6'>"; "<thead>"; "<tr>"]
   ++ List.concat (repeat ["<th>"; "</th>"] n_headers)
   ++ ["</tr>"; "</thead>"; "<tbody>"]
   ++ flat_map row_skeleton row_lengths
   ++ ["</tbody>"; "</table>"])%list.

(** An address that the parsing of the recipients leaves as it is: no
    comma in it and no whitespace at its ends. *)
Definition clean_address (a : string) : bool :=
  negb (has_char ","%char a) && negb (starts_with_space a)
  && negb (ends_with_space a).

Fixpoint all_chars (p : ascii -> bool) (s : string) : bool :=
  match s with
  | EmptyString => true
  | String c s' => p c && all_chars p s'
  end.

(** The characters that [quote_plus] writes. *)
Definition quoted_char (c : ascii) : bool :=
  Url.unreserved c || Ascii.eqb c "+"%char || Ascii.eqb c "%"%char.

Definition query_char (c : ascii) : bool :=
  quoted_char c || Ascii.eqb c "&"%char || Ascii.eqb c "="%char.

(** ** Facts about the string builtins *)

Module PyFacts.

Lemma append_empty_r (s : string) : s ++ EmptyString = s.
Proof. induction s as [|c s IH]; simpl; [reflexivity | now rewrite IH]. Qed.

Lemma has_char_append (c : ascii) (a b : string) :
  has_char c (a ++ b) = has_char c a || has_char c b.
Proof.
  induction a as [|x a IH]; simpl; [reflexivity|].
  rewrite IH. now rewrite orb_assoc.
Qed.

Lemma lstrip_spec (s : string) :
  exists l, s = l ++ Py.lstrip s /\ all_space l = true
            /\ starts_with_space (Py.lstrip s) = false.
Proof.
  induction s as [|c s (l & Hs & Hl & Hst)]; simpl.
  - exists EmptyString. auto.
  - destruct (Py.isspace c) eqn:Hc.
    + exists (String c l). simpl. rewrite Hc, Hl. repeat split; auto.
      now rewrite <- Hs.
    + exists EmptyString. simpl. auto.
Qed.

Lemma rstrip_spec (s : string) :
  exists r, s = Py.rstrip s ++ r /\ all_space r = true
            /\ ends_with_space (Py.rstrip s) = false.
Proof.
  induction s as [|c s (r & Hs & Hr & He)]; simpl.
  - exists EmptyString. auto.
  - destruct (Py.rstrip s) as [|c' t] eqn:Ht.
    + destruct (Py.isspace c) eqn:Hc.
      * exists (String c r). simpl in *. rewrite Hc, Hr. subst s. auto.
      * exists r. simpl in *. rewrite Hc. subst s. auto.
    + exists r. simpl in *. repeat split; auto.
      now rewrite Hs at 1.
Qed.

Lemma rstrip_keeps_start (s : string) :
  starts_with_space s = false -> starts_with_space (Py.rstrip s) = false.
Proof.
  destruct s as [|c s]; simpl; [auto|].
  intros Hc. destruct (Py.rstrip s); [rewrite Hc|]; simpl; auto.
Qed.

(** [strip] removes a run of whitespace at each end, and all of it. *)
Lemma strip_spec (s : string) :
  exists l r, s = l ++ Py.strip s ++ r
              /\ all_space l = true /\ all_space r = true
              /\ starts_with_space (Py.strip s) = false
              /\ ends_with_space (Py.strip s) = false.
Proof.
  destruct (lstrip_spec s) as (l & Hs & Hl & Hst).
  destruct (rstrip_spec (Py.lstrip s)) as (r & Ht & Hr & He).
  exists l, r. unfold Py.strip. repeat split; auto.
  - now rewrite <- Ht.
  - now apply rstrip_keeps_start.
Qed.

Lemma lstrip_all_space (s : string) :
  all_space s = true -> Py.lstrip s = EmptyString.
Proof.
  induction s as [|c s IH]; simpl; [reflexivity|].
  intros H. apply andb_prop in H as [Hc Hs]. rewrite Hc. auto.
Qed.

Lemma strip_all_space (s : string) :
  all_space s = true -> Py.strip s = EmptyString.
Proof. intros H. unfold Py.strip. now rewrite lstrip_all_space. Qed.

Lemma split_not_nil (sep : ascii) (s : string) : Py.split sep s <> [].
Proof.
  destruct s as [|c s]; simpl; [discriminate|].
  destruct (Ascii.eqb c sep); [discriminate|].
  destruct (Py.split sep s); discriminate.
Qed.

(** Joining the pieces with the separator gives the string back. *)
Lemma split_concat (sep : ascii) (s : string) :
  String.concat (String sep EmptyString) (Py.split sep s) = s.
Proof.
  induction s as [|c s IH]; simpl; [reflexivity|].
  destruct (Ascii.eqb c sep) eqn:Hc.
  - apply Ascii.eqb_eq in Hc. subst c.
    pose proof (split_not_nil sep s) as Hn.
    destruct (Py.split sep s) as [|p ps]; [contradiction|].
    simpl in *. now rewrite IH.
  - pose proof (split_not_nil sep s) as Hn.
    destruct (Py.split sep s) as [|p ps]; [contradiction|].
    destruct ps as [|q qs]; simpl in *; now rewrite <- IH.
Qed.

(** No piece holds the separator. *)
Lemma split_no_sep (sep : ascii) (s : string) :
  Forall (fun p => has_char sep p = false) (Py.split sep s).
Proof.
  induction s as [|c s IH]; simpl.
  - constructor; auto.
  - destruct (Ascii.eqb c sep) eqn:Hc.
    + constructor; auto.
    + destruct (Py.split sep s) as [|p ps]; simpl.
      * constructor; auto. simpl. now rewrite Hc.
      * inversion IH; subst. constructor; auto. simpl. now rewrite Hc.
Qed.

(** One more piece than separators. *)
Lemma split_length (sep : ascii) (s : string) :
  List.length (Py.split sep s) = S (count_char sep s).
Proof.
  induction s as [|c s IH]; simpl; [reflexivity|].
  destruct (Ascii.eqb c sep); simpl.
  - now rewrite IH.
  - pose proof (split_not_nil sep s) as Hn.
    destruct (Py.split sep s); [contradiction | exact IH].
Qed.

Lemma split_without_sep (sep : ascii) (s : string) :
  has_char sep s = false -> Py.split sep s = [s].
Proof.
  induction s as [|c s IH]; simpl; [reflexivity|].
  intros H. apply orb_false_elim in H as [Hc Hs].
  rewrite Hc, (IH Hs). reflexivity.
Qed.

Lemma all_space_no_comma (s : string) :
  all_space s = true -> has_char ","%char s = false.
Proof.
  induction s as [|c s IH]; simpl; [reflexivity|].
  intros H. apply andb_prop in H as [Hc Hs]. rewrite (IH Hs), orb_false_r.
  destruct (Ascii.eqb c ","%char) eqn:E; [|reflexivity].
  apply Ascii.eqb_eq in E. subst c. discriminate Hc.
Qed.

(** After the replacement the old character is gone, when the new text
    does not hold it. *)
Lemma replace_removes (old : ascii) (new s : string) :
  has_char old new = false -> has_char old (Py.replace old new s) = false.
Proof.
  intros Hn. induction s as [|c s IH]; simpl; [reflexivity|].
  destruct (Ascii.eqb c old) eqn:Hc.
  - now rewrite has_char_append, Hn, IH.
  - simpl. now rewrite Hc, IH.
Qed.

Lemma length_append (a b : string) :
  String.length (a ++ b) = String.length a + String.length b.
Proof. induction a as [|c a IH]; simpl; [reflexivity | now rewrite IH]. Qed.

(** Each occurrence of [<] grows the text by the three extra characters
    of its entity. *)
Lemma replace_lt_length (s : string) :
  String.length (Py.replace "<"%char "&lt;" s)
  = String.length s + 3 * count_char "<"%char s.
Proof.
  induction s as [|c s IH]; [reflexivity|].
  cbn [Py.replace count_char].
  destruct (Ascii.eqb c "<"%char).
  - rewrite length_append, IH. simpl. lia.
  - cbn [String.length]. rewrite IH. lia.
Qed.

End PyFacts.

(** ** Facts about the Counter and the tally *)

Module CounterFacts.

Lemma hkey_eqb_eq (a b : hkey) : hkey_eqb a b = true <-> a = b.
Proof.
  destruct a, b; simpl; split; intros H; try discriminate; try reflexivity.
  - apply Z.eqb_eq in H. now subst.
  - inversion H. apply Z.eqb_refl.
  - apply String.eqb_eq in H. now subst.
  - inversion H. apply String.eqb_refl.
Qed.

Lemma hkey_eqb_refl (a : hkey) : hkey_eqb a a = true.
Proof. now apply hkey_eqb_eq. Qed.

Lemma incr_total (k : hkey) (c : Counter.t) :
  Counter.total (Counter.incr k c) = S (Counter.total c).
Proof.
  unfold Counter.total.
  induction c as [|[k' n] c IH]; simpl; [reflexivity|].
  destruct (hkey_eqb k' k); simpl; [reflexivity|].
  rewrite IH. lia.
Qed.

Lemma incr_get (k : hkey) (c : Counter.t) (k' : hkey) :
  Counter.get (Counter.incr k c) k'
  = Counter.get c k' + (if hkey_eqb k k' then 1 else 0).
Proof.
  induction c as [|[k0 n] c IH]; simpl; [reflexivity|].
  destruct (hkey_eqb k0 k) eqn:E0; simpl.
  - apply hkey_eqb_eq in E0. subst k0.
    destruct (hkey_eqb k k'); lia.
  - destruct (hkey_eqb k0 k') eqn:E1; [|exact IH].
    apply hkey_eqb_eq in E1. subst k0.
    destruct (hkey_eqb k k') eqn:E2; [|lia].
    apply hkey_eqb_eq in E2. subst k'.
    rewrite hkey_eqb_refl in E0. discriminate.
Qed.

(** What a finished tally holds. *)
Lemma count_labels_spec (es : list pyval) :
  forall c c', count_labels c es = Ok c' ->
    Counter.total c' = Counter.total c + List.length es
    /\ forall k, Counter.get c' k
                 = Counter.get c k + List.length (filter (labelled k) es).
Proof.
  induction es as [|e es IH]; simpl; intros c c' H.
  - inversion H; subst. split; [lia | intros; lia].
  - unfold labelled. simpl.
    destruct (status_label e) as [l|err]; simpl in *; [|discriminate].
    destruct (hash_key l) as [k0|err]; simpl in *; [|discriminate].
    apply IH in H as [Ht Hg]. split.
    + rewrite Ht, incr_total. lia.
    + intros k. rewrite Hg, incr_get.
      fold (labelled k). destruct (hkey_eqb k0 k); simpl; lia.
Qed.

Lemma record_has_label (e : pyval) :
  is_execution_record e = true ->
  exists l k, status_label e = Ok l /\ hash_key l = Ok k.
Proof.
  destruct e as [| | | |l|d]; simpl; try discriminate.
  unfold status_label; simpl.
  destruct (Py.lookup d "status") as [[|b|z|s|l|d']|]; try discriminate;
    intros _; unfold Py.or_; simpl.
  - do 2 eexists; split; reflexivity.
  - destruct b; do 2 eexists; split; reflexivity.
  - destruct (negb (Z.eqb z 0)); do 2 eexists; split; reflexivity.
  - destruct (negb (String.eqb s Py.empty)); do 2 eexists; split; reflexivity.
  - do 2 eexists; split; reflexivity.
Qed.

(** The tally of execution records never raises. *)
Lemma count_labels_total (es : list pyval) :
  forallb is_execution_record es = true ->
  forall c, exists c', count_labels c es = Ok c'.
Proof.
  induction es as [|e es IH]; simpl; intros H c; [eauto|].
  apply andb_prop in H as [He Hes].
  destruct (record_has_label e He) as (l & k & Hl & Hk).
  rewrite Hl. simpl. rewrite Hk. simpl. apply IH, Hes.
Qed.

Lemma missing_status_label (d : list (string * pyval)) :
  status_missing_or_empty d = true ->
  status_label (PDict d) = Ok (PStr "Unknown").
Proof.
  unfold status_missing_or_empty, status_label. simpl.
  destruct (Py.lookup d "status") as [[|b|z|s|l|d']|]; try discriminate; auto.
  intros H. apply String.eqb_eq in H. subst s. reflexivity.
Qed.

End CounterFacts.

(** ** Facts about ASCII text *)

Module AsciiFacts.

Lemma is_ascii_append (a b : string) :
  is_ascii (a ++ b) = is_ascii a && is_ascii b.
Proof.
  induction a as [|c a IH]; cbn [append is_ascii]; [reflexivity|].
  now rewrite IH, andb_assoc.
Qed.

Lemma uint_ascii (d : Decimal.uint) : is_ascii (NilEmpty.string_of_uint d) = true.
Proof. induction d; cbn [NilEmpty.string_of_uint is_ascii]; auto. Qed.

Lemma str_of_Z_ascii (z : Z) : is_ascii (Py.str_of_Z z) = true.
Proof.
  unfold Py.str_of_Z, NilZero.string_of_int, NilZero.string_of_uint.
  destruct (Z.to_int z) as [d|d]; destruct d; try reflexivity;
    cbn [NilEmpty.string_of_uint is_ascii]; try apply uint_ascii;
    cbn [is_ascii_char nat_of_ascii]; apply uint_ascii.
Qed.

Lemma zeros_ascii (n : nat) : is_ascii (zeros n) = true.
Proof. induction n; cbn [zeros is_ascii]; auto. Qed.

Lemma zero_padded_ascii (width n : nat) : is_ascii (zero_padded width n) = true.
Proof.
  unfold zero_padded, Py.str_of_nat.
  now rewrite is_ascii_append, zeros_ascii, str_of_Z_ascii.
Qed.

(** The text of a date is ASCII. *)
Lemma isoformat_ascii (d : date) : is_ascii (isoformat d) = true.
Proof.
  unfold isoformat. now rewrite !is_ascii_append, !zero_padded_ascii.
Qed.

(** ASCII text is encoded as it is. *)
Lemma quote_plus_ascii (u : beyond) (s : string) :
  is_ascii s = true -> Url.quote_plus_str u s = Ok (Url.quote_plus s).
Proof. intros H. unfold Url.quote_plus_str. now rewrite H. Qed.

(** The query of the listing for an ASCII project key. *)
Lemma listing_query_ascii (u : beyond) (project_key : string) (d : date) (limit : Z) :
  is_ascii project_key = true ->
  Url.urlencode u
    [("projectKey", project_key); ("from", isoformat d ++ "T00:00:00Z");
     ("to", isoformat d ++ "T23:59:59Z"); ("maxResults", Py.str_of_Z limit)]
  = Ok (quoted_query
          [("projectKey", project_key); ("from", isoformat d ++ "T00:00:00Z");
           ("to", isoformat d ++ "T23:59:59Z"); ("maxResults", Py.str_of_Z limit)]).
Proof.
  intros H. unfold Url.urlencode. cbn [mapM fst snd bind].
  rewrite (quote_plus_ascii u "projectKey" eq_refl).
  rewrite (quote_plus_ascii u project_key H).
  rewrite (quote_plus_ascii u "from" eq_refl).
  rewrite (quote_plus_ascii u (isoformat d ++ "T00:00:00Z"))
    by (rewrite is_ascii_append, isoformat_ascii; reflexivity).
  rewrite (quote_plus_ascii u "to" eq_refl).
  rewrite (quote_plus_ascii u (isoformat d ++ "T23:59:59Z"))
    by (rewrite is_ascii_append, isoformat_ascii; reflexivity).
  rewrite (quote_plus_ascii u "maxResults" eq_refl).
  rewrite (quote_plus_ascii u (Py.str_of_Z limit) (str_of_Z_ascii limit)).
  reflexivity.
Qed.

End AsciiFacts.

(** ** The test execution client *)

(** C1 (the code departs from it): the body [{executions: [...]}] is
    normalised to its sequence of records, but a bare top-level array is
    not accepted: [data.get] is looked up on a list and raises
    AttributeError, and the run stops after the listing request, before any
    tally or mail. *)
Theorem zephyr_bare_array_raises :
  forall records : list pyval,
    zephyr_executions_of (PDict [("executions", PList records)]) = Ok (PList records)
    /\ zephyr_executions_of (PList records) = Raise AttributeError
    /\ (forall repr u today,
          fst (run repr u sample_env today
                 (listing_network (PDict [("executions", PList sample_executions)])))
          = Ok tt)
    /\ (forall repr u today,
          fst (run repr u sample_env today (listing_network (PList sample_executions)))
          = Raise AttributeError).
Proof.
  intros records.
  split; [reflexivity|]. split; [reflexivity|].
  split; intros repr u today; unfold run, main, zephyr_get_test_executions;
    change (load_config u sample_env)
      with (Ok (sample_config "a@x.com, b@y.com,c@z.com"));
    cbv beta iota zeta delta [iobind lift PROJECT_KEY sample_config];
    rewrite (AsciiFacts.listing_query_ascii u "CAM" today 1000 eq_refl);
    reflexivity.
Qed.

(** ** The aggregator *)

(** C3: the counts of the tally of a sequence of execution records add up
    to the length of the sequence, and the count of each label is the
    number of records with that label. *)
Theorem tally_conserves_length :
  forall executions : list pyval,
    forallb is_execution_record executions = true ->
    exists counts,
      status_counts (PList executions) = Ok counts
      /\ Counter.total counts = List.length executions
      /\ forall k, Counter.get counts k = List.length (filter (labelled k) executions).
Proof.
  intros executions H.
  destruct (CounterFacts.count_labels_total executions H []) as (counts & Hc).
  exists counts. unfold status_counts. simpl. split; [exact Hc|].
  apply CounterFacts.count_labels_spec in Hc as [Ht Hg]. split.
  - exact Ht.
  - intros k. now rewrite Hg.
Qed.

Lemma tally_conserves_length_witness :
  forallb is_execution_record sample_executions = true
  /\ exists counts,
       status_counts (PList sample_executions) = Ok counts
       /\ Counter.total counts = List.length sample_executions
       /\ forall k, Counter.get counts k
                    = List.length (filter (labelled k) sample_executions).
Proof.
  split; [reflexivity | apply (tally_conserves_length sample_executions); reflexivity].
Defined.

(** C4: a record whose status is missing or the empty string is labelled
    [Unknown]; adding it to a sequence raises the count of [Unknown] by one
    and leaves every other count as it was. *)
Theorem missing_status_counted_unknown :
  forall (before after : list pyval) (d : list (string * pyval)),
    forallb is_execution_record (before ++ after)%list = true ->
    status_missing_or_empty d = true ->
    status_label (PDict d) = Ok (PStr "Unknown")
    /\ exists without counts,
         status_counts (PList (before ++ after)%list) = Ok without
         /\ status_counts (PList (before ++ PDict d :: after)%list) = Ok counts
         /\ Counter.total counts = S (Counter.total without)
         /\ forall k, Counter.get counts k
                      = Counter.get without k
                        + (if hkey_eqb (KStr "Unknown") k then 1 else 0).
Proof.
  intros before after d Hrec Hd.
  pose proof (CounterFacts.missing_status_label d Hd) as Hl.
  split; [exact Hl|].
  assert (Hrec' : forallb is_execution_record (before ++ PDict d :: after)%list = true).
  { rewrite forallb_app in *. apply andb_prop in Hrec as [Hb Ha].
    rewrite Hb. simpl. rewrite Ha, andb_true_r.
    unfold status_missing_or_empty in Hd.
    destruct (Py.lookup d "status") as [[| | | | |]|]; auto; discriminate. }
  destruct (CounterFacts.count_labels_total _ Hrec []) as (without & Hw).
  destruct (CounterFacts.count_labels_total _ Hrec' []) as (counts & Hc).
  exists without, counts. unfold status_counts. cbn [Py.iter bind].
  split; [exact Hw|]. split; [exact Hc|].
  apply CounterFacts.count_labels_spec in Hw as [Htw Hgw].
  apply CounterFacts.count_labels_spec in Hc as [Htc Hgc].
  split.
  - rewrite Htc, Htw. rewrite !length_app. simpl. lia.
  - intros k. rewrite Hgc, Hgw. rewrite !filter_app, !length_app.
    cbn [filter]. unfold labelled at 2. rewrite Hl. cbn [bind hash_key].
    destruct (hkey_eqb (KStr "Unknown") k); cbn [List.length]; simpl Counter.get; lia.
Qed.

Lemma missing_status_counted_unknown_witness :
  forallb is_execution_record (sample_executions ++ sample_executions)%list = true
  /\ status_missing_or_empty sample_blank = true
  /\ status_label (PDict sample_blank) = Ok (PStr "Unknown")
  /\ exists without counts,
       status_counts (PList (sample_executions ++ sample_executions)%list) = Ok without
       /\ status_counts
            (PList (sample_executions ++ PDict sample_blank :: sample_executions)%list)
          = Ok counts
       /\ Counter.total counts = S (Counter.total without)
       /\ forall k, Counter.get counts k
                    = Counter.get without k
                      + (if hkey_eqb (KStr "Unknown") k then 1 else 0).
Proof.
  split; [reflexivity|]. split; [reflexivity|].
  apply (missing_status_counted_unknown sample_executions sample_executions sample_blank);
    reflexivity.
Defined.

(** ** The renderer *)

(** Whatever else an issue holds, a null assignee leaves it without a
    row. *)
Lemma jira_row_assignee_null (repr : pyval -> string) (base : string)
    (issue : pyval) (f : list (string * pyval)) :
  Py.getitem issue "fields" = Ok (PDict f) ->
  Py.lookup f "assignee" = Some PNone ->
  forall row, jira_row repr base issue <> Ok row.
Proof.
  intros Hf Ha row. unfold jira_row. rewrite Hf. cbn [bind Py.get]. rewrite Ha.
  destruct (Py.getitem issue "key"); cbn [bind]; [|discriminate].
  destruct (replace_method _ _ _); cbn [bind]; [|discriminate].
  destruct (Py.lookup f "priority") as [[| | | | |p]|]; cbn [bind Py.get];
    try discriminate;
    destruct (Py.lookup f "status") as [[| | | | |st]|]; cbn [bind Py.get];
    discriminate.
Qed.

(** An issue without the assignee field, or whose assignee has no display
    name, gets the em dash. *)
Lemma jira_row_assignee_default (repr : pyval -> string) (base : string)
    (issue : pyval) (row : list pyval) (f : list (string * pyval)) :
  Py.getitem issue "fields" = Ok (PDict f) ->
  Py.get (match Py.lookup f "assignee" with Some a => a | None => PDict [] end)
         "displayName" (PStr em_dash) = Ok (PStr em_dash) ->
  jira_row repr base issue = Ok row ->
  nth_error row 4 = Some (PStr em_dash).
Proof.
  intros Hf Ha. unfold jira_row. rewrite Hf.
  destruct (Py.getitem issue "key"); cbn [bind]; [|discriminate].
  destruct (Py.get (PDict f) "summary" PNone); cbn [bind]; [|discriminate].
  destruct (replace_method _ _ _); cbn [bind]; [|discriminate].
  destruct (Py.get (PDict f) "priority" (PDict [])); cbn [bind]; [|discriminate].
  destruct (Py.get _ "name" _); cbn [bind]; [|discriminate].
  destruct (Py.get (PDict f) "status" (PDict [])); cbn [bind]; [|discriminate].
  destruct (Py.get _ "name" _); cbn [bind]; [|discriminate].
  cbn [Py.get bind]. rewrite Ha. cbn [bind].
  intros H. inversion H. reflexivity.
Qed.

(** C6 (the code departs from it): an issue with no assignee field has the
    em dash in its assignee cell, but for the unassigned issue that carries
    [assignee: null] the row is not rendered: [.get] is looked up on [None]
    and raises AttributeError. *)
Theorem jira_row_null_assignee_raises :
  forall (repr : pyval -> string) (base : string),
    jira_row repr base issue_assignee_null = Raise AttributeError
    /\ exists row, jira_row repr base issue_assignee_absent = Ok row
                   /\ nth_error row 4 = Some (PStr em_dash).
Proof.
  intros repr base. split; [reflexivity|].
  eexists. split; reflexivity.
Qed.

(** ** Delivery *)

(** C5 (the code departs from it): the subject embeds the run date, but
    the project code in it is the literal CAM whatever project key is
    configured; with the key XYZ the subject still ends in (CAM) and does
    not hold XYZ, while the title of the report body does. *)
Theorem subject_has_fixed_project :
  (forall (u : beyond) (cfg : config) (today html : string),
      msg_Subject (compose u cfg today html)
      = "Daily QA Report — " ++ today ++ " (CAM)")
  /\ forall u : beyond,
     exists cfg,
       load_config u env_other_project = Ok cfg
       /\ PROJECT_KEY cfg = "XYZ"
       /\ msg_Subject (compose u cfg "2024-01-02" EmptyString)
          = "Daily QA Report — 2024-01-02 (CAM)"
       /\ contains "XYZ" (msg_Subject (compose u cfg "2024-01-02" EmptyString))
          = false.
Proof.
  split; [reflexivity|]. intros u.
  eexists. split; [reflexivity|]. repeat split; reflexivity.
Qed.

(** C9: the recipients are the pieces of the configured string between
    its commas, each passed through [strip] and nothing else checked; an
    ASCII piece comes out without the whitespace around it; the string of
    the example gives its three addresses. *)
Theorem recipients_split_and_trim :
  forall u : beyond,
    recipients u "a@x.com, b@y.com,c@z.com" = ["a@x.com"; "b@y.com"; "c@z.com"]
    /\ recipients u "not an address ,@@" = ["not an address"; "@@"]
    /\ forall MAIL_TO : string,
         exists pieces,
           String.concat "," pieces = MAIL_TO
           /\ Forall (fun p => has_char ","%char p = false) pieces
           /\ List.length pieces = S (count_char ","%char MAIL_TO)
           /\ recipients u MAIL_TO = map (str_strip u) pieces
           /\ Forall (fun p => is_ascii p = true ->
                               exists l r,
                                 p = l ++ str_strip u p ++ r
                                 /\ all_space l = true /\ all_space r = true
                                 /\ starts_with_space (str_strip u p) = false
                                 /\ ends_with_space (str_strip u p) = false) pieces.
Proof.
  intros u.
  split; [reflexivity|]. split; [reflexivity|].
  intros MAIL_TO. exists (Py.split ","%char MAIL_TO).
  split; [apply PyFacts.split_concat|].
  split; [apply PyFacts.split_no_sep|].
  split; [apply PyFacts.split_length|].
  split; [reflexivity|].
  apply Forall_forall. intros p _ Hp. unfold str_strip. rewrite Hp.
  apply PyFacts.strip_spec.
Qed.

(** One address with whitespace around it. *)
Lemma recipients_split_and_trim_witness :
  is_ascii "  a@x.com " = true
  /\ recipients sample_beyond "  a@x.com "
     = [str_strip sample_beyond "  a@x.com "]
  /\ exists l r,
       "  a@x.com " = l ++ str_strip sample_beyond "  a@x.com " ++ r
       /\ all_space l = true /\ all_space r = true
       /\ starts_with_space (str_strip sample_beyond "  a@x.com ") = false
       /\ ends_with_space (str_strip sample_beyond "  a@x.com ") = false.
Proof.
  split; [reflexivity|]. split; [reflexivity|].
  destruct (recipients_split_and_trim sample_beyond) as (_ & _ & H).
  destruct (H "  a@x.com ") as (pieces & Hc & _ & Hl & _ & Hf).
  destruct pieces as [|p [|q pieces]]; [discriminate Hl | | discriminate Hl].
  cbn [String.concat] in Hc. subst p.
  apply Forall_inv in Hf. apply Hf. reflexivity.
Defined.

(** C10: a recipient string that is empty or all whitespace gives the
    one-element list holding the empty string, and the message is
    addressed to that list. *)
Theorem recipients_blank :
  forall (u : beyond) (cfg : config) (today html : string),
    all_space (MAIL_TO cfg) = true ->
    recipients u (MAIL_TO cfg) = [EmptyString]
    /\ msg_To (compose u cfg today html) = [EmptyString].
Proof.
  intros u cfg today html H.
  assert (Ha : is_ascii (MAIL_TO cfg) = true).
  { clear - H. induction (MAIL_TO cfg) as [|c s IH]; [reflexivity|].
    cbn [all_space is_ascii] in *. apply andb_prop in H as [Hc Hs].
    rewrite (IH Hs), andb_true_r.
    unfold Py.isspace in Hc. unfold is_ascii_char.
    apply Nat.ltb_lt.
    apply orb_prop in Hc as [Hc|Hc]; apply andb_prop in Hc as [_ Hc];
      apply Nat.leb_le in Hc; lia. }
  assert (Hr : recipients u (MAIL_TO cfg) = [EmptyString]).
  { unfold recipients.
    rewrite (PyFacts.split_without_sep _ _ (PyFacts.all_space_no_comma _ H)).
    cbn [map]. unfold str_strip. rewrite Ha.
    now rewrite (PyFacts.strip_all_space _ H). }
  split; [exact Hr | exact Hr].
Qed.

Lemma recipients_blank_witness :
  all_space (MAIL_TO (sample_config "  ")) = true
  /\ recipients sample_beyond (MAIL_TO (sample_config "  ")) = [EmptyString]
  /\ msg_To (compose sample_beyond (sample_config "  ") "2024-01-02" EmptyString)
     = [EmptyString].
Proof.
  split; [reflexivity|].
  apply (recipients_blank sample_beyond (sample_config "  ") "2024-01-02" EmptyString);
    reflexivity.
Defined.

(** ** Configuration resolution *)

Module ConfigFacts.

Lemma required_absent_cases (env : environ) :
  (exists k, In k required_keys /\ environ_lookup env k = None) ->
  environ_lookup env "JIRA_BASE" = None
  \/ environ_lookup env "JIRA_EMAIL" = None
  \/ environ_lookup env "JIRA_API_TOKEN" = None
  \/ environ_lookup env "ZEPHYR_SCALE_TOKEN" = None
  \/ environ_lookup env "SMTP_HOST" = None
  \/ environ_lookup env "SMTP_USER" = None
  \/ environ_lookup env "SMTP_PASS" = None
  \/ environ_lookup env "MAIL_TO" = None.
Proof.
  intros (k & Hin & Hk). unfold required_keys in Hin. simpl in Hin.
  repeat (destruct Hin as [<-|Hin]; [tauto|]). contradiction.
Qed.

(** A failed configuration stops the module before its first call. *)
Lemma main_stops_at_config (repr : pyval -> string) (u : beyond)
    (env : environ) (today : date) (net : network) (e : pyerror) :
  load_config u env = Raise e -> run repr u env today net = (Raise e, []).
Proof.
  intros H. unfold run, main, iobind, lift. now rewrite H.
Qed.

Lemma load_config_failure (u : beyond) (env : environ) :
  (exists k, In k required_keys /\ environ_lookup env k = None) ->
  exists k, first_missing env = Some k
            /\ In k required_keys
            /\ environ_lookup env k = None
            /\ load_config u env = Raise (config_failure u env k).
Proof.
  intros H. apply required_absent_cases in H.
  unfold load_config, first_missing, config_failure, port_unreadable,
    environ_getitem, required_keys.
  cbn [find].
  destruct (environ_lookup env "JIRA_BASE") eqn:E1;
    [|exists "JIRA_BASE"; cbn; rewrite andb_false_r; auto 12].
  destruct (environ_lookup env "JIRA_EMAIL") eqn:E2;
    [|exists "JIRA_EMAIL"; cbn; rewrite andb_false_r; auto 12].
  destruct (environ_lookup env "JIRA_API_TOKEN") eqn:E3;
    [|exists "JIRA_API_TOKEN"; cbn; rewrite andb_false_r; auto 12].
  destruct (environ_lookup env "ZEPHYR_SCALE_TOKEN") eqn:E4;
    [|exists "ZEPHYR_SCALE_TOKEN"; cbn; rewrite andb_false_r; auto 12].
  destruct (environ_lookup env "SMTP_HOST") eqn:E5;
    [|exists "SMTP_HOST"; cbn; rewrite andb_false_r; auto 12].
  cbn [bind].
  destruct (PyInt.int u (environ_get env "SMTP_PORT" "587")) as [port|err] eqn:EP.
  - cbn [bind andb].
    destruct (environ_lookup env "SMTP_USER") eqn:E6;
      [|exists "SMTP_USER"; cbn; auto 12].
    destruct (environ_lookup env "SMTP_PASS") eqn:E7;
      [|exists "SMTP_PASS"; cbn; auto 12].
    destruct (environ_lookup env "MAIL_TO") eqn:E8;
      [|exists "MAIL_TO"; cbn; auto 12].
    exfalso. intuition congruence.
  - assert (err = ValueError) as ->.
    { unfold PyInt.int in EP.
      destruct (if PyInt.written_out _ then _ else _);
        [discriminate | now inversion EP]. }
    cbn [bind andb].
    destruct (environ_lookup env "SMTP_USER") eqn:E6;
      [|exists "SMTP_USER"; cbn; auto 12].
    destruct (environ_lookup env "SMTP_PASS") eqn:E7;
      [|exists "SMTP_PASS"; cbn; auto 12].
    destruct (environ_lookup env "MAIL_TO") eqn:E8;
      [|exists "MAIL_TO"; cbn; auto 12].
    exfalso. intuition congruence.
Qed.

End ConfigFacts.

(** C2 (as the code has it): when a required key is absent the module
    fails while it resolves its configuration, with no call made on the
    network: no HTTP request and no mail session.  The failure is the
    KeyError of the first absent key in the order of the reads, unless the
    port is set to a text that is no integer and that key is read after
    the port: then it is the ValueError of the conversion. *)
Theorem missing_key_fails_before_any_call :
  forall (repr : pyval -> string) (u : beyond) (env : environ) (today : date) (net : network),
    (exists k, In k required_keys /\ environ_lookup env k = None) ->
    exists k,
      first_missing env = Some k
      /\ In k required_keys
      /\ environ_lookup env k = None
      /\ run repr u env today net = (Raise (config_failure u env k), []).
Proof.
  intros repr u env today net H.
  destruct (ConfigFacts.load_config_failure u env H) as (k & Hf & Hin & Hk & Hl).
  exists k. repeat split; auto.
  now apply ConfigFacts.main_stops_at_config.
Qed.

Lemma missing_key_fails_before_any_call_witness :
  (exists k, In k required_keys /\ environ_lookup env_no_recipients k = None)
  /\ exists k,
       first_missing env_no_recipients = Some k
       /\ In k required_keys
       /\ environ_lookup env_no_recipients k = None
       /\ run (fun _ => EmptyString) sample_beyond env_no_recipients sample_date
              (listing_network PNone)
          = (Raise (config_failure sample_beyond env_no_recipients k), []).
Proof.
  assert (H : exists k, In k required_keys
                        /\ environ_lookup env_no_recipients k = None).
  { exists "MAIL_TO". split; [simpl; auto 10 | reflexivity]. }
  split; [exact H|].
  apply (missing_key_fails_before_any_call (fun _ => EmptyString) sample_beyond env_no_recipients
           sample_date (listing_network PNone)).
  exact H.
Defined.

(** With the mail account absent and the port set to [abc] the failure
    is the ValueError of [int], whatever [int] does beyond ASCII. *)
Lemma bad_port_value_error (repr : pyval -> string) (u : beyond) (today : date)
    (net : network) :
  run repr u env_bad_port today net = (Raise ValueError, []).
Proof. now apply ConfigFacts.main_stops_at_config. Qed.

(** C2 as it is worded fails: with the mail account absent and the port
    set to [abc], the failure is the ValueError of [int], not a KeyError. *)
Lemma missing_key_not_always_keyerror :
  ~ (forall (repr : pyval -> string) (u : beyond) (env : environ) (today : date) (net : network),
        (exists k, In k required_keys /\ environ_lookup env k = None) ->
        exists k, run repr u env today net = (Raise (KeyError k), [])).
Proof.
  intros H.
  destruct (H (fun _ => EmptyString) sample_beyond env_bad_port sample_date (listing_network PNone))
    as (k & Hk).
  - exists "SMTP_USER". split; [simpl; auto 10 | reflexivity].
  - vm_compute in Hk. discriminate Hk.
Qed.

(** ** Rows and tables *)

(** C8: in the row of an issue the summary cell is the summary with each
    [<] replaced by [&lt;]: the cell holds no [<], and it is longer than
    the summary by three characters for each [<] of the summary. *)
Theorem summary_cell_escapes_lt :
  forall (repr : pyval -> string) (base : string) (issue : pyval),
    is_issue_record issue = true ->
    exists row cell,
      jira_row repr base issue = Ok row
      /\ nth_error row 1 = Some (PStr cell)
      /\ cell = Py.replace "<"%char "&lt;" (summary_text issue)
      /\ has_char "<"%char cell = false
      /\ String.length cell
         = String.length (summary_text issue)
           + 3 * count_char "<"%char (summary_text issue).
Proof.
  intros repr base issue H.
  assert (Hcell : forall s, has_char "<"%char (Py.replace "<"%char "&lt;" s) = false)
    by (intros s; now apply PyFacts.replace_removes).
  unfold is_issue_record in H. unfold jira_row, summary_text.
  destruct (Py.getitem issue "fields") as [[| | | | |f]|]; try discriminate.
  destruct (Py.getitem issue "key") as [key|]; try discriminate.
  apply andb_prop in H as [H Ha]. apply andb_prop in H as [H Hst].
  apply andb_prop in H as [Hs Hp].
  unfold object_or_absent in Hp, Hst, Ha.
  cbn [bind Py.get].
  destruct (Py.lookup f "priority") as [[| | | | |p]|]; try discriminate;
    destruct (Py.lookup f "status") as [[| | | | |st]|]; try discriminate;
    destruct (Py.lookup f "assignee") as [[| | | | |a]|]; try discriminate;
    destruct (Py.lookup f "summary") as [[| | |s| |]|]; try discriminate;
    unfold Py.or_; cbn [Py.truthy];
    try (destruct (String.eqb s Py.empty) eqn:Es;
         [apply String.eqb_eq in Es; subst s|]);
    cbn [negb replace_method bind Py.get];
    do 2 eexists; (split; [reflexivity|]); (split; [reflexivity|]);
    (split; [reflexivity|]); (split; [apply Hcell | apply PyFacts.replace_lt_length]).
Qed.

Lemma summary_cell_escapes_lt_witness :
  is_issue_record issue_assignee_absent = true
  /\ exists row cell,
       jira_row (fun _ => EmptyString) "https://tracker.example" issue_assignee_absent
       = Ok row
       /\ nth_error row 1 = Some (PStr cell)
       /\ cell = Py.replace "<"%char "&lt;" (summary_text issue_assignee_absent)
       /\ has_char "<"%char cell = false
       /\ String.length cell
          = String.length (summary_text issue_assignee_absent)
            + 3 * count_char "<"%char (summary_text issue_assignee_absent).
Proof.
  split; [reflexivity|].
  apply (summary_cell_escapes_lt (fun _ => EmptyString) "https://tracker.example"
           issue_assignee_absent).
  reflexivity.
Defined.

Module TableFacts.

Lemma scan_append (a b : string) :
  forall tag,
    scan tag (a ++ b)
    = let (ta, ea) := scan tag a in
      let (tb, eb) := scan ea b in
      ((ta ++ tb)%list, eb).
Proof.
  induction a as [|c a IH]; intros tag; cbn [append scan].
  - destruct (scan tag b); reflexivity.
  - destruct tag as [t|].
    + destruct (Ascii.eqb c ">"%char).
      * rewrite IH. destruct (scan None a) as [ta ea].
        destruct (scan ea b) as [tb eb]. reflexivity.
      * apply IH.
    + destruct (Ascii.eqb c "<"%char); apply IH.
Qed.

Lemma tags_append (a b : string) :
  balanced a = true -> tags (a ++ b) = (tags a ++ tags b)%list.
Proof.
  unfold balanced, tags. rewrite scan_append.
  destruct (scan None a) as [ta [t|]]; cbn [fst snd]; [discriminate|].
  intros _. destruct (scan None b); reflexivity.
Qed.

Lemma balanced_append (a b : string) :
  balanced a = true -> balanced b = true -> balanced (a ++ b) = true.
Proof.
  unfold balanced. rewrite scan_append.
  destruct (scan None a) as [ta [t|]]; cbn [snd]; [discriminate|].
  intros _. destruct (scan None b) as [tb eb]. auto.
Qed.

Lemma count_tag_append (t a b : string) :
  balanced a = true -> count_tag t (a ++ b) = count_tag t a + count_tag t b.
Proof.
  intros H. unfold count_tag. rewrite (tags_append a b H). apply count_occ_app.
Qed.

(** The cells of a row open no row. *)
Lemma cells_no_row (repr : pyval -> string) (row : list pyval) :
  forallb (fun cell => cell_text_ok (py_str repr cell)) row = true ->
  balanced (Py.join (map (fun cell => "<td>" ++ py_str repr cell ++ "</td>") row)) = true
  /\ count_tag "<tr>"
       (Py.join (map (fun cell => "<td>" ++ py_str repr cell ++ "</td>") row)) = 0.
Proof.
  unfold Py.join.
  induction row as [|cell row IH]; intros H; [split; reflexivity|].
  cbn [forallb] in H. apply andb_prop in H as [Hc Hr].
  destruct (IH Hr) as [Hb Hn]. clear IH.
  unfold cell_text_ok in Hc. apply andb_prop in Hc as [Hcb Hcn].
  apply Nat.eqb_eq in Hcn.
  assert (Hb1 : balanced ("<td>" ++ py_str repr cell ++ "</td>") = true).
  { apply (balanced_append "<td>"); [reflexivity|].
    apply balanced_append; [exact Hcb | reflexivity]. }
  assert (Hn1 : count_tag "<tr>" ("<td>" ++ py_str repr cell ++ "</td>") = 0).
  { rewrite (count_tag_append _ "<td>") by reflexivity.
    rewrite count_tag_append by exact Hcb. rewrite Hcn. reflexivity. }
  assert (E : String.concat EmptyString
                (map (fun cell => "<td>" ++ py_str repr cell ++ "</td>") (cell :: row))
              = ("<td>" ++ py_str repr cell ++ "</td>")
                ++ String.concat EmptyString
                     (map (fun cell => "<td>" ++ py_str repr cell ++ "</td>") row)).
  { cbn [map String.concat].
    destruct (map (fun cell => "<td>" ++ py_str repr cell ++ "</td>") row);
      [now rewrite PyFacts.append_empty_r | reflexivity]. }
  rewrite E. split.
  - now apply balanced_append.
  - rewrite count_tag_append by exact Hb1. now rewrite Hn1, Hn.
Qed.

(** A rendered row opens one row. *)
Lemma tr_row_one_row (repr : pyval -> string) (row : list pyval) :
  forallb (fun cell => cell_text_ok (py_str repr cell)) row = true ->
  balanced (tr_row repr row) = true /\ count_tag "<tr>" (tr_row repr row) = 1.
Proof.
  intros H. destruct (cells_no_row repr row H) as [Hb Hn].
  unfold tr_row. split.
  - apply (balanced_append "<tr>"); [reflexivity|].
    apply balanced_append; [exact Hb | reflexivity].
  - rewrite (count_tag_append _ "<tr>") by reflexivity.
    rewrite count_tag_append by exact Hb. rewrite Hn. reflexivity.
Qed.

(** The body of a table opens as many rows as the input has. *)
Lemma body_row_count (repr : pyval -> string) (rows : list (list pyval)) :
  forallb (forallb (fun cell => cell_text_ok (py_str repr cell))) rows = true ->
  balanced (Py.join (tr_rows repr rows)) = true
  /\ count_tag "<tr>" (Py.join (tr_rows repr rows)) = List.length rows.
Proof.
  unfold Py.join, tr_rows.
  induction rows as [|row rows IH]; intros H; [split; reflexivity|].
  cbn [forallb] in H. apply andb_prop in H as [Hrow Hrows].
  destruct (IH Hrows) as [Hb Hn]. clear IH.
  destruct (tr_row_one_row repr row Hrow) as [Hb1 Hn1].
  assert (E : String.concat EmptyString (map (tr_row repr) (row :: rows))
              = tr_row repr row ++ String.concat EmptyString (map (tr_row repr) rows)).
  { cbn [map String.concat].
    destruct (map (tr_row repr) rows);
      [now rewrite PyFacts.append_empty_r | reflexivity]. }
  rewrite E. split.
  - now apply balanced_append.
  - rewrite count_tag_append by exact Hb1. rewrite Hn1, Hn. reflexivity.
Qed.

End TableFacts.

(** C7: the table of no rows is the table element with its header row and
    an empty body; the table of N rows has, after the same header, a body
    that is the N rendered rows joined in the order of the input, the i-th
    one rendering the i-th input row.  Read back, that body opens exactly N
    rows when no cell text opens a row or leaves a tag open. *)
Theorem to_table_body_rows :
  forall (repr : pyval -> string) (rows : list (list pyval)) (headers : list pyval),
    to_table repr [] headers
    = "<table border='1' cellspacing='0' cellpadding='6'>"
      ++ "<thead><tr>" ++ Py.join (th_cells repr headers) ++ "</tr></thead>"
      ++ "<tbody></tbody>" ++ "</table>"
    /\ exists body_rows : list string,
         to_table repr rows headers
         = "<table border='1' cellspacing='0' cellpadding='6'>"
           ++ "<thead><tr>" ++ Py.join (th_cells repr headers) ++ "</tr></thead>"
           ++ "<tbody>" ++ Py.join body_rows ++ "</tbody>" ++ "</table>"
         /\ List.length body_rows = List.length rows
         /\ (forall i : nat,
               nth_error body_rows i
               = option_map
                   (fun row =>
                      "<tr>"
                      ++ Py.join (map (fun cell => "<td>" ++ py_str repr cell ++ "</td>") row)
                      ++ "</tr>")
                   (nth_error rows i))
         /\ (forallb (forallb (fun cell => cell_text_ok (py_str repr cell))) rows = true ->
             count_tag "<tr>" (Py.join body_rows) = List.length rows).
Proof.
  intros repr rows headers. split; [reflexivity|].
  exists (tr_rows repr rows). split; [reflexivity|].
  unfold tr_rows at 1 2. split; [apply length_map|].
  split; [intros i; apply nth_error_map|].
  intros H. now apply TableFacts.body_row_count.
Qed.

Lemma to_table_body_rows_witness :
  forallb (forallb (fun cell => cell_text_ok (py_str (fun _ => EmptyString) cell)))
    sample_rows = true
  /\ exists body_rows : list string,
       to_table (fun _ => EmptyString) sample_rows table_headers
       = "<table border='1' cellspacing='0' cellpadding='6'>"
         ++ "<thead><tr>" ++ Py.join (th_cells (fun _ => EmptyString) table_headers)
         ++ "</tr></thead>"
         ++ "<tbody>" ++ Py.join body_rows ++ "</tbody>" ++ "</table>"
       /\ List.length body_rows = 2
       /\ count_tag "<tr>" (Py.join body_rows) = 2.
Proof.
  split; [reflexivity|].
  destruct (to_table_body_rows (fun _ => EmptyString) sample_rows table_headers)
    as (_ & body_rows & Heq & Hlen & _ & Hcount).
  exists body_rows. split; [exact Heq|]. split; [exact Hlen|].
  apply Hcount. reflexivity.
Defined.

(** ** Further facts about strings *)

Module StringMore.

Lemma append_assoc (a b c : string) : (a ++ b) ++ c = a ++ b ++ c.
Proof. induction a as [|x a IH]; cbn [append]; [reflexivity | now rewrite IH]. Qed.

End StringMore.

(** ** Further properties of the run *)

Module RunFacts.

(** Splits a goal about [run] along the exits of the module: the
    configuration, each answer of the network, and each pure step. *)
Ltac run_step env net :=
  match goal with
  | |- context [load_config ?b env] =>
      destruct (load_config b env) as [?cfg|?err] eqn:?Ecfg
  | |- context [Url.urlencode ?b ?qs] =>
      destruct (Url.urlencode b qs) as [?query|?err] eqn:?Equery
  | |- context [is_disconnected ?e] =>
      destruct (is_disconnected e) eqn:?Equit
  | |- context [Py.get ?d ?k ?v] =>
      destruct (Py.get d k v) as [?issues|?err] eqn:?Eget
  | |- context [zephyr_executions_of ?d] =>
      destruct (zephyr_executions_of d) as [?executions|?err] eqn:?Ezep
  | |- context [status_counts ?d] =>
      destruct (status_counts d) as [?counts|?err] eqn:?Ecount
  | |- context [html_body ?x1 ?x2 ?x3 ?x4 ?x5 ?x6 ?x7 ?x8 ?x9] =>
      destruct (html_body x1 x2 x3 x4 x5 x6 x7 x8 x9) as [?html|?err] eqn:?Ehtml
  | |- context [net ?tr ?ev] =>
      destruct (net tr ev) as [?d|?err] eqn:?Enet
  end.

Ltac run_cases env net :=
  unfold run, main, jira_search, zephyr_get_test_executions, send, with_smtp;
  repeat first
    [ progress cbv beta iota zeta delta [iobind lift call ret fst snd]
    | run_step env net ];
  cbn [app] in *.

(** Evaluates the event predicates on a trace that is written out. *)
Ltac trace_eval :=
  cbn [filter forallb existsb is_http is_smtp is_post is_get is_send
       is_starttls is_login negb andb orb app List.length].

End RunFacts.

Module TraceFacts.

(** Where an element of a list that is written out can sit. *)
Lemma cons_eq_app {A : Type} (x : A) (l before : list A) (y : A) (after : list A) :
  x :: l = (before ++ y :: after)%list ->
  (before = [] /\ y = x /\ after = l)
  \/ (exists before', before = x :: before' /\ l = (before' ++ y :: after)%list).
Proof.
  destruct before as [|b before]; cbn [app]; intros H.
  - left. injection H as -> ->. auto.
  - right. injection H as -> ->. eauto.
Qed.

Lemma nil_eq_app {A : Type} (before : list A) (y : A) (after : list A) :
  [] = (before ++ y :: after)%list -> False.
Proof. destruct before; discriminate. Qed.

(** Runs through the positions of a call in a trace that is written out;
    [tac] closes each position. *)
Ltac each_position H tac :=
  repeat first
    [ apply nil_eq_app in H; contradiction
    | apply cons_eq_app in H;
      destruct H as [(-> & -> & ->)|(? & -> & H)]; [tac|] ].

Lemma disconnected_eq (e : pyerror) :
  is_disconnected e = true -> e = SMTPServerDisconnected.
Proof. destruct e; try discriminate; reflexivity. Qed.

End TraceFacts.

(** X1: the calls of a run are a run-up of its three requests in the
    order of the source (the search for the defects of today, the search
    for the open blockers, the listing), each made once, and after all three
    at most one mail session: the connection, then STARTTLS, login and one
    message as far as they got, then QUIT.  No call is made when the
    configuration fails. *)
Theorem run_requests_then_session :
  forall (repr : pyval -> string) (u : beyond) (env : environ) (today : date)
         (net : network),
    (exists e, load_config u env = Raise e /\ snd (run repr u env today net) = [])
    \/ exists cfg,
         load_config u env = Ok cfg
         /\ ((exists n, 1 <= n <= 3
                        /\ snd (run repr u env today net)
                           = firstn n (requests u cfg today))
             \/ (exists html m,
                    m <= 3
                    /\ List.length (requests u cfg today) = 3
                    /\ snd (run repr u env today net)
                       = (requests u cfg today
                          ++ session_calls cfg (compose u cfg (isoformat today) html) m)%list)).
Proof.
  intros repr u env today net.
  RunFacts.run_cases env net;
    first
      [ left; eexists; split; reflexivity
      | right; eexists; split; [reflexivity|];
        unfold requests, listing_query;
        try match goal with
            | E : Url.urlencode _ _ = _ |- _ => rewrite E
            end;
        first
          [ left; exists 1; split; [lia | reflexivity]
          | left; exists 2; split; [lia | reflexivity]
          | left; exists 3; split; [lia | reflexivity]
          | right;
            match goal with
            | H : html_body _ _ _ _ _ _ _ _ _ = Ok ?h |- _ => exists h
            end;
            first
              [ exists 0; split; [lia|]; split; reflexivity
              | exists 1; split; [lia|]; split; reflexivity
              | exists 2; split; [lia|]; split; reflexivity
              | exists 3; split; [lia|]; split; reflexivity ] ] ].
Qed.

(** X2: a mail session is started only after the configuration was
    resolved and the two searches and the listing were each answered; the
    calls after the three requests are all calls of that session. *)
Theorem session_only_after_answers :
  forall (repr : pyval -> string) (u : beyond) (env : environ) (today : date) (net : network),
    existsb is_smtp (snd (run repr u env today net)) = true ->
    exists cfg p1 p2 g d1 d2 d3 rest,
      load_config u env = Ok cfg
      /\ snd (run repr u env today net)
         = p1 :: p2 :: g :: SmtpConnect (SMTP_HOST cfg) (SMTP_PORT cfg) :: rest
      /\ is_post p1 = true /\ is_post p2 = true /\ is_get g = true
      /\ net [] p1 = Ok d1 /\ net [p1] p2 = Ok d2 /\ net [p1; p2] g = Ok d3
      /\ forallb is_smtp rest = true.
Proof.
  intros repr u env today net.
  RunFacts.run_cases env net; RunFacts.trace_eval;
    try discriminate; intros _;
    do 8 eexists; repeat apply conj;
    first [eassumption | reflexivity].
Qed.

Lemma session_only_after_answers_witness :
  existsb is_smtp
    (snd (run (fun _ => EmptyString) sample_beyond sample_env sample_date sample_network)) = true
  /\ exists cfg p1 p2 g d1 d2 d3 rest,
       load_config sample_beyond sample_env = Ok cfg
       /\ snd (run (fun _ => EmptyString) sample_beyond sample_env sample_date sample_network)
          = p1 :: p2 :: g :: SmtpConnect (SMTP_HOST cfg) (SMTP_PORT cfg) :: rest
       /\ is_post p1 = true /\ is_post p2 = true /\ is_get g = true
       /\ sample_network [] p1 = Ok d1 /\ sample_network [p1] p2 = Ok d2
       /\ sample_network [p1; p2] g = Ok d3
       /\ forallb is_smtp rest = true.
Proof.
  split; [reflexivity|].
  apply (session_only_after_answers (fun _ => EmptyString) sample_beyond sample_env sample_date
           sample_network).
  reflexivity.
Defined.

(** X3: once the connection is open (STARTTLS was called), the last call
    of the run is QUIT, whether the upgrade, the login or the sending
    failed or not. *)
Theorem session_always_closed :
  forall (repr : pyval -> string) (u : beyond) (env : environ) (today : date) (net : network),
    existsb is_starttls (snd (run repr u env today net)) = true ->
    exists before, snd (run repr u env today net) = (before ++ [SmtpQuit])%list.
Proof.
  intros repr u env today net.
  RunFacts.run_cases env net; RunFacts.trace_eval;
    try discriminate; intros _;
    match goal with
    | |- exists before, ?tr = _ => exists (removelast tr)
    end;
    reflexivity.
Qed.

(** A session in which the login is refused. *)
Lemma session_always_closed_witness :
  existsb is_starttls
    (snd (run (fun _ => EmptyString) sample_beyond sample_env sample_date login_refused_network))
  = true
  /\ exists before,
       snd (run (fun _ => EmptyString) sample_beyond sample_env sample_date login_refused_network)
       = (before ++ [SmtpQuit])%list.
Proof.
  split; [reflexivity|].
  apply (session_always_closed (fun _ => EmptyString) sample_beyond sample_env sample_date
           login_refused_network).
  reflexivity.
Defined.

(** X4: a message is sent at most once and only as the seventh call, in a
    session whose connection, STARTTLS and login were each answered; its
    body is the report rendered from what the two searches and the listing
    answered, and it is the message composed from that report, the date and
    the configuration. *)
Theorem message_sent_in_full_session :
  forall (repr : pyval -> string) (u : beyond) (env : environ) (today : date)
         (net : network),
    existsb is_send (snd (run repr u env today net)) = true ->
    exists cfg query d1 d2 d3 defects blockers executions counts html v1 v2 v3,
      load_config u env = Ok cfg
      /\ listing_query u cfg today = Ok query
      /\ snd (run repr u env today net)
         = [search_request cfg (jql_defects_today (PROJECT_KEY cfg));
            search_request cfg (jql_open_blockers (PROJECT_KEY cfg));
            listing_request cfg query;
            SmtpConnect (SMTP_HOST cfg) (SMTP_PORT cfg); SmtpStartTls;
            SmtpLogin (SMTP_USER cfg) (SMTP_PASS cfg);
            SmtpSendMessage (compose u cfg (isoformat today) html); SmtpQuit]
      /\ net [] (search_request cfg (jql_defects_today (PROJECT_KEY cfg))) = Ok d1
      /\ Py.get d1 "issues" (PList []) = Ok defects
      /\ net [search_request cfg (jql_defects_today (PROJECT_KEY cfg))]
             (search_request cfg (jql_open_blockers (PROJECT_KEY cfg))) = Ok d2
      /\ Py.get d2 "issues" (PList []) = Ok blockers
      /\ net (firstn 2 (snd (run repr u env today net))) (listing_request cfg query)
         = Ok d3
      /\ zephyr_executions_of d3 = Ok executions
      /\ status_counts executions = Ok counts
      /\ html_body repr cfg (isoformat today) (isoformat today ++ "T00:00:00Z")
           (isoformat today ++ "T23:59:59Z") executions counts defects blockers
         = Ok html
      /\ net (firstn 3 (snd (run repr u env today net)))
             (SmtpConnect (SMTP_HOST cfg) (SMTP_PORT cfg)) = Ok v1
      /\ net (firstn 4 (snd (run repr u env today net))) SmtpStartTls = Ok v2
      /\ net (firstn 5 (snd (run repr u env today net)))
             (SmtpLogin (SMTP_USER cfg) (SMTP_PASS cfg)) = Ok v3.
Proof.
  intros repr u env today net.
  unfold run, main, jira_search, zephyr_get_test_executions, send, with_smtp;
    repeat first
      [ progress cbv beta iota zeta
          delta [iobind lift call ret fst snd firstn app]
      | RunFacts.run_step env net ];
    RunFacts.trace_eval; try discriminate; intros _;
    do 13 eexists; unfold listing_query;
    repeat apply conj;
    first [eassumption | reflexivity].
Qed.

Lemma message_sent_in_full_session_witness :
  existsb is_send
    (snd (run (fun _ => EmptyString) sample_beyond sample_env sample_date
            sample_network)) = true
  /\ exists cfg html,
       load_config sample_beyond sample_env = Ok cfg
       /\ nth_error
            (snd (run (fun _ => EmptyString) sample_beyond sample_env sample_date
                    sample_network)) 6
          = Some (SmtpSendMessage
                    (compose sample_beyond cfg (isoformat sample_date) html)).
Proof.
  split; [reflexivity|].
  destruct (message_sent_in_full_session (fun _ => EmptyString) sample_beyond
              sample_env sample_date sample_network eq_refl)
    as (cfg & query & d1 & d2 & d3 & defects & blockers & executions & counts
        & html & v1 & v2 & v3 & Hcfg & _ & Htr & _).
  exists cfg, html. split; [exact Hcfg|]. rewrite Htr. reflexivity.
Defined.

(** X5: a run that ends without an exception made exactly eight calls:
    the two searches, the listing, and the session that sent one message
    and was closed.  Each call was answered, except that QUIT may have found
    the server disconnected, which the closing of the session passes
    over. *)
Theorem success_is_one_sent_report :
  forall (repr : pyval -> string) (u : beyond) (env : environ) (today : date)
         (net : network),
    fst (run repr u env today net) = Ok tt ->
    exists cfg query html,
      load_config u env = Ok cfg
      /\ listing_query u cfg today = Ok query
      /\ snd (run repr u env today net)
         = [search_request cfg (jql_defects_today (PROJECT_KEY cfg));
            search_request cfg (jql_open_blockers (PROJECT_KEY cfg));
            listing_request cfg query;
            SmtpConnect (SMTP_HOST cfg) (SMTP_PORT cfg); SmtpStartTls;
            SmtpLogin (SMTP_USER cfg) (SMTP_PASS cfg);
            SmtpSendMessage (compose u cfg (isoformat today) html); SmtpQuit]
      /\ forall before ev after,
           snd (run repr u env today net) = (before ++ ev :: after)%list ->
           (exists v, net before ev = Ok v)
           \/ (ev = SmtpQuit /\ after = []
               /\ net before ev = Raise SMTPServerDisconnected).
Proof.
  intros repr u env today net.
  RunFacts.run_cases env net; try discriminate; intros _;
    do 3 eexists; unfold listing_query;
    (split; [reflexivity|]); (split; [eassumption|]); (split; [reflexivity|]);
    intros before ev after H;
    TraceFacts.each_position H
      ltac:(first
              [ left; eexists; eassumption
              | right; repeat apply conj; try reflexivity;
                match goal with
                | Hq : is_disconnected ?x = true, Hn : net _ SmtpQuit = Raise ?x |- _ =>
                    apply TraceFacts.disconnected_eq in Hq; subst x; exact Hn
                end ]).
Qed.

Lemma success_is_one_sent_report_witness :
  fst (run (fun _ => EmptyString) sample_beyond sample_env sample_date sample_network)
  = Ok tt
  /\ List.length
       (snd (run (fun _ => EmptyString) sample_beyond sample_env sample_date
               sample_network)) = 8
  /\ exists cfg query html,
       load_config sample_beyond sample_env = Ok cfg
       /\ listing_query sample_beyond cfg sample_date = Ok query
       /\ snd (run (fun _ => EmptyString) sample_beyond sample_env sample_date
                 sample_network)
          = [search_request cfg (jql_defects_today (PROJECT_KEY cfg));
             search_request cfg (jql_open_blockers (PROJECT_KEY cfg));
             listing_request cfg query;
             SmtpConnect (SMTP_HOST cfg) (SMTP_PORT cfg); SmtpStartTls;
             SmtpLogin (SMTP_USER cfg) (SMTP_PASS cfg);
             SmtpSendMessage (compose sample_beyond cfg (isoformat sample_date) html);
             SmtpQuit]
       /\ forall before ev after,
            snd (run (fun _ => EmptyString) sample_beyond sample_env sample_date
                   sample_network) = (before ++ ev :: after)%list ->
            (exists v, sample_network before ev = Ok v)
            \/ (ev = SmtpQuit /\ after = []
                /\ sample_network before ev = Raise SMTPServerDisconnected).
Proof.
  split; [reflexivity|]. split; [reflexivity|].
  apply (success_is_one_sent_report (fun _ => EmptyString) sample_beyond sample_env
           sample_date sample_network).
  reflexivity.
Defined.

(** X6: the account and its password are presented at most once, and only
    on a connection whose STARTTLS upgrade was answered. *)
Theorem login_only_after_tls :
  forall (repr : pyval -> string) (u : beyond) (env : environ) (today : date) (net : network),
    existsb is_login (snd (run repr u env today net)) = true ->
    exists cfg p1 p2 g rest v,
      load_config u env = Ok cfg
      /\ snd (run repr u env today net)
         = p1 :: p2 :: g :: SmtpConnect (SMTP_HOST cfg) (SMTP_PORT cfg)
           :: SmtpStartTls :: SmtpLogin (SMTP_USER cfg) (SMTP_PASS cfg) :: rest
      /\ net [p1; p2; g; SmtpConnect (SMTP_HOST cfg) (SMTP_PORT cfg)] SmtpStartTls
         = Ok v
      /\ existsb is_login rest = false.
Proof.
  intros repr u env today net.
  RunFacts.run_cases env net; RunFacts.trace_eval;
    try discriminate; intros _;
    do 6 eexists; repeat apply conj;
    first [eassumption | reflexivity].
Qed.

Lemma login_only_after_tls_witness :
  existsb is_login
    (snd (run (fun _ => EmptyString) sample_beyond sample_env sample_date login_refused_network))
  = true
  /\ exists cfg p1 p2 g rest v,
       load_config sample_beyond sample_env = Ok cfg
       /\ snd (run (fun _ => EmptyString) sample_beyond sample_env sample_date login_refused_network)
          = p1 :: p2 :: g :: SmtpConnect (SMTP_HOST cfg) (SMTP_PORT cfg)
            :: SmtpStartTls :: SmtpLogin (SMTP_USER cfg) (SMTP_PASS cfg) :: rest
       /\ login_refused_network
            [p1; p2; g; SmtpConnect (SMTP_HOST cfg) (SMTP_PORT cfg)] SmtpStartTls
          = Ok v
       /\ existsb is_login rest = false.
Proof.
  split; [reflexivity|].
  apply (login_only_after_tls (fun _ => EmptyString) sample_beyond sample_env sample_date
           login_refused_network).
  reflexivity.
Defined.

(** ** Further properties of the configuration *)

Module ConfigMore.

Lemma first_missing_none (env : environ) :
  first_missing env = None ->
  exists v1 v2 v3 v4 v5 v6 v7 v8,
    environ_lookup env "JIRA_BASE" = Some v1
    /\ environ_lookup env "JIRA_EMAIL" = Some v2
    /\ environ_lookup env "JIRA_API_TOKEN" = Some v3
    /\ environ_lookup env "ZEPHYR_SCALE_TOKEN" = Some v4
    /\ environ_lookup env "SMTP_HOST" = Some v5
    /\ environ_lookup env "SMTP_USER" = Some v6
    /\ environ_lookup env "SMTP_PASS" = Some v7
    /\ environ_lookup env "MAIL_TO" = Some v8.
Proof.
  unfold first_missing, required_keys. cbn [find].
  destruct (environ_lookup env "JIRA_BASE"); [|discriminate].
  destruct (environ_lookup env "JIRA_EMAIL"); [|discriminate].
  destruct (environ_lookup env "JIRA_API_TOKEN"); [|discriminate].
  destruct (environ_lookup env "ZEPHYR_SCALE_TOKEN"); [|discriminate].
  destruct (environ_lookup env "SMTP_HOST"); [|discriminate].
  destruct (environ_lookup env "SMTP_USER"); [|discriminate].
  destruct (environ_lookup env "SMTP_PASS"); [|discriminate].
  destruct (environ_lookup env "MAIL_TO"); [|discriminate].
  intros _. do 8 eexists. repeat apply conj; reflexivity.
Qed.

Lemma int_raises_value_error (u : beyond) (s : string) (e : pyerror) :
  PyInt.int u s = Raise e -> e = ValueError.
Proof.
  unfold PyInt.int.
  destruct (if PyInt.written_out s then _ else _); [discriminate|].
  intros H. now inversion H.
Qed.

End ConfigMore.

(** X7: the configuration is resolved exactly when no required key is
    absent and [int] accepts the port, set or defaulted. *)
Theorem load_config_succeeds_iff :
  forall (u : beyond) (env : environ),
    (exists cfg, load_config u env = Ok cfg)
    <-> (first_missing env = None /\ port_unreadable u env = false).
Proof.
  intros u env. split.
  - intros (cfg & H). unfold load_config, environ_getitem in H.
    unfold first_missing, required_keys, port_unreadable. cbn [find].
    destruct (environ_lookup env "JIRA_BASE"); [|discriminate H].
    destruct (environ_lookup env "JIRA_EMAIL"); [|discriminate H].
    destruct (environ_lookup env "JIRA_API_TOKEN"); [|discriminate H].
    destruct (environ_lookup env "ZEPHYR_SCALE_TOKEN"); [|discriminate H].
    destruct (environ_lookup env "SMTP_HOST"); [|discriminate H].
    cbn [bind] in H.
    destruct (PyInt.int u (environ_get env "SMTP_PORT" "587")); [|discriminate H].
    cbn [bind] in H.
    destruct (environ_lookup env "SMTP_USER"); [|discriminate H].
    destruct (environ_lookup env "SMTP_PASS"); [|discriminate H].
    destruct (environ_lookup env "MAIL_TO"); [|discriminate H].
    split; reflexivity.
  - intros [Hm Hp].
    destruct (ConfigMore.first_missing_none env Hm)
      as (v1 & v2 & v3 & v4 & v5 & v6 & v7 & v8 & E1 & E2 & E3 & E4 & E5 & E6 & E7 & E8).
    unfold port_unreadable in Hp. unfold load_config, environ_getitem.
    rewrite E1, E2, E3, E4, E5, E6, E7, E8. cbn [bind].
    destruct (PyInt.int u (environ_get env "SMTP_PORT" "587")); [|discriminate Hp].
    cbn [bind]. eexists. reflexivity.
Qed.

Lemma load_config_succeeds_iff_witness :
  exists cfg, load_config sample_beyond sample_env = Ok cfg.
Proof.
  apply (load_config_succeeds_iff sample_beyond sample_env). split; reflexivity.
Defined.

(** X8: a resolved configuration holds the values of the environment as
    they are; an absent project key reads CAM, an absent port 587 and an
    absent sender the mail account. *)
Theorem load_config_values :
  forall (u : beyond) (env : environ) (cfg : config),
    load_config u env = Ok cfg ->
    environ_lookup env "JIRA_BASE" = Some (JIRA_BASE cfg)
    /\ environ_lookup env "JIRA_EMAIL" = Some (JIRA_EMAIL cfg)
    /\ environ_lookup env "JIRA_API_TOKEN" = Some (JIRA_TOKEN cfg)
    /\ environ_lookup env "ZEPHYR_SCALE_TOKEN" = Some (Z_TOKEN cfg)
    /\ environ_lookup env "SMTP_HOST" = Some (SMTP_HOST cfg)
    /\ environ_lookup env "SMTP_USER" = Some (SMTP_USER cfg)
    /\ environ_lookup env "SMTP_PASS" = Some (SMTP_PASS cfg)
    /\ environ_lookup env "MAIL_TO" = Some (MAIL_TO cfg)
    /\ match environ_lookup env "PROJECT_KEY" with
       | Some v => PROJECT_KEY cfg = v
       | None => PROJECT_KEY cfg = "CAM"
       end
    /\ match environ_lookup env "SMTP_PORT" with
       | Some v => PyInt.int u v = Ok (SMTP_PORT cfg)
       | None => SMTP_PORT cfg = 587%Z
       end
    /\ match environ_lookup env "MAIL_FROM" with
       | Some v => MAIL_FROM cfg = v
       | None => MAIL_FROM cfg = SMTP_USER cfg
       end.
Proof.
  intros u env cfg H. unfold load_config, environ_getitem, environ_get in H.
  destruct (environ_lookup env "JIRA_BASE"); [|discriminate H].
  destruct (environ_lookup env "JIRA_EMAIL"); [|discriminate H].
  destruct (environ_lookup env "JIRA_API_TOKEN"); [|discriminate H].
  destruct (environ_lookup env "ZEPHYR_SCALE_TOKEN"); [|discriminate H].
  destruct (environ_lookup env "SMTP_HOST"); [|discriminate H].
  cbn [bind] in H.
  destruct (environ_lookup env "SMTP_PORT") as [port|].
  - destruct (PyInt.int u port) eqn:Ep; [|discriminate H]. cbn [bind] in H.
    destruct (environ_lookup env "SMTP_USER"); [|discriminate H].
    destruct (environ_lookup env "SMTP_PASS"); [|discriminate H].
    destruct (environ_lookup env "MAIL_TO"); [|discriminate H].
    cbn [bind] in H. inversion H; subst; clear H. cbn.
    destruct (environ_lookup env "PROJECT_KEY");
      destruct (environ_lookup env "MAIL_FROM"); repeat apply conj; reflexivity.
  - change (PyInt.int u "587") with (@Ok Z 587%Z) in H. cbn [bind] in H.
    destruct (environ_lookup env "SMTP_USER"); [|discriminate H].
    destruct (environ_lookup env "SMTP_PASS"); [|discriminate H].
    destruct (environ_lookup env "MAIL_TO"); [|discriminate H].
    cbn [bind] in H. inversion H; subst; clear H. cbn.
    destruct (environ_lookup env "PROJECT_KEY");
      destruct (environ_lookup env "MAIL_FROM"); repeat apply conj; reflexivity.
Qed.

Lemma load_config_values_witness :
  load_config sample_beyond sample_env = Ok (sample_config "a@x.com, b@y.com,c@z.com")
  /\ environ_lookup sample_env "JIRA_BASE"
     = Some (JIRA_BASE (sample_config "a@x.com, b@y.com,c@z.com"))
  /\ SMTP_PORT (sample_config "a@x.com, b@y.com,c@z.com") = 587%Z.
Proof.
  split; [reflexivity|].
  pose proof (load_config_values sample_beyond sample_env (sample_config "a@x.com, b@y.com,c@z.com")
                eq_refl) as H.
  split; [apply H|]. reflexivity.
Defined.

(** X9: with every required key set and a port that [int] refuses the
    run stops in the configuration with the ValueError of [int], before any
    call. *)
Theorem unreadable_port_stops_run :
  forall (repr : pyval -> string) (u : beyond) (env : environ) (today : date) (net : network),
    first_missing env = None ->
    port_unreadable u env = true ->
    run repr u env today net = (Raise ValueError, []).
Proof.
  intros repr u env today net Hm Hp.
  apply ConfigFacts.main_stops_at_config.
  destruct (ConfigMore.first_missing_none env Hm)
    as (v1 & v2 & v3 & v4 & v5 & v6 & v7 & v8 & E1 & E2 & E3 & E4 & E5 & E6 & E7 & E8).
  unfold port_unreadable in Hp. unfold load_config, environ_getitem.
  rewrite E1, E2, E3, E4, E5. cbn [bind].
  destruct (PyInt.int u (environ_get env "SMTP_PORT" "587")) eqn:Ep; [discriminate Hp|].
  apply ConfigMore.int_raises_value_error in Ep. now subst.
Qed.

Lemma unreadable_port_stops_run_witness :
  first_missing env_port_text = None
  /\ port_unreadable sample_beyond env_port_text = true
  /\ run (fun _ => EmptyString) sample_beyond env_port_text sample_date sample_network
     = (Raise ValueError, []).
Proof.
  split; [reflexivity|]. split; [reflexivity|].
  apply (unreadable_port_stops_run (fun _ => EmptyString) sample_beyond env_port_text sample_date
           sample_network); reflexivity.
Defined.

(** ** Further properties of the tally *)

Module TallyFacts.

Lemma filter_length_cons {A : Type} (f : A -> bool) (a : A) (l : list A) :
  List.length (filter f (a :: l))
  = (if f a then 1 else 0) + List.length (filter f l).
Proof. cbn [filter]. destruct (f a); reflexivity. Qed.

Lemma filter_length_permutation {A : Type} (f : A -> bool) (l l' : list A) :
  Permutation l l' -> List.length (filter f l) = List.length (filter f l').
Proof.
  induction 1 as [|a l l' _ IH|a b l|l l' l'' _ IH1 _ IH2].
  - reflexivity.
  - rewrite !filter_length_cons. now rewrite IH.
  - rewrite !filter_length_cons. lia.
  - now rewrite IH1.
Qed.

(** The tally of a sequence succeeds exactly when no element raises. *)
Lemma count_labels_ok_iff (es : list pyval) :
  forall c,
    (exists c', count_labels c es = Ok c')
    <-> Forall (fun e => tally_error e = None) es.
Proof.
  induction es as [|e es IH]; intros c; cbn [count_labels].
  - split; [constructor | eauto].
  - unfold status_label, tally_error at 1.
    destruct e as [| | | | |d]; cbn [Py.get bind];
      try (split; [intros (c' & H); discriminate H | intros H; inversion H; discriminate]).
    destruct (Py.lookup d "status") as [[|b|z|s|[|x l]|[|x d']]|] eqn:El;
      unfold Py.or_; cbn [Py.truthy];
      repeat match goal with
        | |- context [if ?b then _ else _] => destruct b
        end;
      cbn [bind hash_key];
      try (rewrite IH; split;
           [intros H; constructor;
            [unfold tally_error; now rewrite El | exact H]
           | intros H; now inversion H]);
      (split; [intros (c' & H); discriminate H
              | intros H; inversion H as [|? ? Hd]; subst;
                unfold tally_error in Hd; rewrite El in Hd; discriminate Hd]).
Qed.

Lemma count_labels_app (a b : list pyval) :
  forall c, count_labels c (a ++ b)%list
            = (c' <- count_labels c a ;; count_labels c' b).
Proof.
  induction a as [|e a IH]; intros c; cbn [app count_labels bind]; [reflexivity|].
  destruct (status_label e); cbn [bind]; [|reflexivity].
  destruct (hash_key a0); cbn [bind]; [|reflexivity].
  apply IH.
Qed.

Lemma record_no_error (e : pyval) :
  is_execution_record e = true -> tally_error e = None.
Proof.
  unfold is_execution_record, tally_error.
  destruct e as [| | | | |d]; try discriminate.
  destruct (Py.lookup d "status") as [[| | | |l|d']|]; try discriminate; reflexivity.
Qed.

(** The element at which the tally stops. *)
Lemma count_labels_error (e : pyval) (err : pyerror) (rest : list pyval) :
  tally_error e = Some err ->
  forall c, count_labels c (e :: rest) = Raise err.
Proof.
  unfold tally_error. intros H c. cbn [count_labels]. unfold status_label.
  destruct e as [| | | | |d]; cbn [Py.get bind];
    try (inversion H; reflexivity).
  destruct (Py.lookup d "status") as [[| | | |[|x l]|[|x d']]|];
    try discriminate H; inversion H; reflexivity.
Qed.

(** Every record falls under exactly one of the five listed labels or
    under another label. *)
Lemma one_label (e : pyval) :
  (if labelled (KStr "Pass") e then 1 else 0)
  + (if labelled (KStr "Fail") e then 1 else 0)
  + (if labelled (KStr "Blocked") e then 1 else 0)
  + (if labelled (KStr "Not Executed") e then 1 else 0)
  + (if labelled (KStr "Unknown") e then 1 else 0)
  + (if has_other_label e then 1 else 0) = 1.
Proof.
  unfold has_other_label, surfaced_labels. cbn [existsb].
  unfold labelled.
  destruct (l <- status_label e ;; hash_key l) as [[|z|s]|err];
    try reflexivity.
  cbn [hkey_eqb].
  destruct (String.eqb s "Pass") eqn:E1;
    destruct (String.eqb s "Fail") eqn:E2;
    destruct (String.eqb s "Blocked") eqn:E3;
    destruct (String.eqb s "Not Executed") eqn:E4;
    destruct (String.eqb s "Unknown") eqn:E5;
    try reflexivity;
    repeat match goal with
      | H : String.eqb _ _ = true |- _ => apply String.eqb_eq in H
      end;
    congruence.
Qed.

Lemma labels_partition (es : list pyval) :
  List.length es
  = List.length (filter (labelled (KStr "Pass")) es)
    + List.length (filter (labelled (KStr "Fail")) es)
    + List.length (filter (labelled (KStr "Blocked")) es)
    + List.length (filter (labelled (KStr "Not Executed")) es)
    + List.length (filter (labelled (KStr "Unknown")) es)
    + List.length (filter has_other_label es).
Proof.
  induction es as [|e es IH]; [reflexivity|].
  rewrite !filter_length_cons. cbn [List.length].
  pose proof (one_label e). lia.
Qed.

End TallyFacts.

(** X10: the tally does not depend on the order of the execution records:
    a reordered sequence is tallied without error as well, to the same
    count for every label and the same total. *)
Theorem tally_order_independent :
  forall (executions reordered : list pyval) (counts : Counter.t),
    Permutation executions reordered ->
    status_counts (PList executions) = Ok counts ->
    exists counts',
      status_counts (PList reordered) = Ok counts'
      /\ Counter.total counts' = Counter.total counts
      /\ forall k, Counter.get counts' k = Counter.get counts k.
Proof.
  intros es es' counts Hp H. unfold status_counts in *. cbn [Py.iter bind] in *.
  assert (Hok : Forall (fun e => tally_error e = None) es')
    by (apply (Permutation_Forall Hp), (TallyFacts.count_labels_ok_iff es []); eauto).
  apply (TallyFacts.count_labels_ok_iff es' []) in Hok as (counts' & H').
  exists counts'. split; [exact H'|].
  apply CounterFacts.count_labels_spec in H as [Ht Hg].
  apply CounterFacts.count_labels_spec in H' as [Ht' Hg'].
  split.
  - rewrite Ht, Ht'. now rewrite (Permutation_length Hp).
  - intros k. rewrite Hg, Hg'.
    now rewrite (TallyFacts.filter_length_permutation (labelled k) es es' Hp).
Qed.

Lemma tally_order_independent_witness :
  Permutation sample_executions (rev sample_executions)
  /\ exists counts counts',
       status_counts (PList sample_executions) = Ok counts
       /\ status_counts (PList (rev sample_executions)) = Ok counts'
       /\ Counter.total counts' = Counter.total counts
       /\ forall k, Counter.get counts' k = Counter.get counts k.
Proof.
  split; [apply Permutation_rev|].
  eexists.
  destruct (tally_order_independent sample_executions (rev sample_executions) _
              (Permutation_rev sample_executions) eq_refl) as (counts' & H).
  exists counts'. split; [reflexivity | exact H].
Defined.

(** X11: the total of a tally is the sum of the five counts that the
    report prints plus the number of records under any other label: the
    printed counts fall short of the total by exactly those records. *)
Theorem listed_counts_and_others :
  forall (executions : list pyval) (counts : Counter.t),
    status_counts (PList executions) = Ok counts ->
    List.length executions
    = listed counts + List.length (filter has_other_label executions)
    /\ Counter.total counts
       = listed counts + List.length (filter has_other_label executions).
Proof.
  intros es counts H. unfold status_counts in H. cbn [Py.iter bind] in H.
  apply CounterFacts.count_labels_spec in H as [Ht Hg].
  assert (E : List.length es
              = listed counts + List.length (filter has_other_label es)).
  { unfold listed, surfaced_labels. cbn [map]. rewrite !Hg.
    cbn [Counter.get]. rewrite (TallyFacts.labels_partition es) at 1.
    unfold list_sum. cbn [fold_right]. lia. }
  split; [exact E|]. rewrite Ht. change (Counter.total []) with 0. exact E.
Qed.

Lemma listed_counts_and_others_witness :
  exists counts,
    status_counts (PList (PDict [("status", PStr "In Progress")] :: sample_executions))
    = Ok counts
    /\ List.length (PDict [("status", PStr "In Progress")] :: sample_executions)
       = listed counts + 1
    /\ Counter.total counts = listed counts + 1.
Proof.
  eexists. split; [reflexivity|].
  apply (listed_counts_and_others
           (PDict [("status", PStr "In Progress")] :: sample_executions)).
  reflexivity.
Defined.

(** X12: the tally stops at the first element it cannot count, with
    AttributeError when the element is no JSON object and TypeError when
    its status is a non-empty list or object; what follows the element
    plays no part. *)
Theorem tally_stops_at_first_bad_element :
  forall (records : list pyval) (e : pyval) (rest : list pyval) (err : pyerror),
    forallb is_execution_record records = true ->
    tally_error e = Some err ->
    status_counts (PList (records ++ e :: rest)%list) = Raise err.
Proof.
  intros records e rest err Hr He. unfold status_counts. cbn [Py.iter bind].
  rewrite TallyFacts.count_labels_app.
  destruct (CounterFacts.count_labels_total records Hr []) as (c & Hc).
  rewrite Hc. cbn [bind]. now apply TallyFacts.count_labels_error.
Qed.

Lemma tally_stops_at_first_bad_element_witness :
  forallb is_execution_record sample_executions = true
  /\ tally_error (PStr "Pass") = Some AttributeError
  /\ status_counts (PList (sample_executions ++ PStr "Pass" :: sample_executions)%list)
     = Raise AttributeError.
Proof.
  split; [reflexivity|]. split; [reflexivity|].
  apply (tally_stops_at_first_bad_element sample_executions (PStr "Pass")
           sample_executions AttributeError); reflexivity.
Defined.

Module CounterInvariant.

Lemma incr_keys (k : hkey) (c : Counter.t) (k' : hkey) :
  In k' (map fst (Counter.incr k c)) <-> k' = k \/ In k' (map fst c).
Proof.
  induction c as [|[k0 n] c IH]; cbn [Counter.incr map fst In].
  - intuition congruence.
  - destruct (hkey_eqb k0 k) eqn:E; cbn [map fst In].
    + apply CounterFacts.hkey_eqb_eq in E. subst k0. intuition congruence.
    + rewrite IH. tauto.
Qed.

Lemma incr_nodup (k : hkey) (c : Counter.t) :
  NoDup (map fst c) -> NoDup (map fst (Counter.incr k c)).
Proof.
  induction c as [|[k0 n] c IH]; cbn [Counter.incr map fst]; intros H.
  - constructor; [intros [] | constructor].
  - inversion H as [|? ? Hn Hc]; subst.
    destruct (hkey_eqb k0 k) eqn:E; cbn [map fst].
    + constructor; assumption.
    + constructor; [|now apply IH].
      rewrite incr_keys. intros [->|Hin]; [|contradiction].
      rewrite CounterFacts.hkey_eqb_refl in E. discriminate E.
Qed.

Lemma incr_positive (k : hkey) (c : Counter.t) :
  Forall (fun kv => 1 <= snd kv) c ->
  Forall (fun kv => 1 <= snd kv) (Counter.incr k c).
Proof.
  induction c as [|[k0 n] c IH]; cbn [Counter.incr]; intros H.
  - constructor; [cbn; lia | constructor].
  - inversion H; subst.
    destruct (hkey_eqb k0 k); constructor; cbn in *; auto; lia.
Qed.

Lemma count_labels_invariant (es : list pyval) :
  forall c c',
    count_labels c es = Ok c' ->
    NoDup (map fst c) ->
    Forall (fun kv => 1 <= snd kv) c ->
    NoDup (map fst c')
    /\ Forall (fun kv => 1 <= snd kv) c'
    /\ forall k, In k (map fst c')
                 <-> In k (map fst c) \/ existsb (labelled k) es = true.
Proof.
  induction es as [|e es IH]; cbn [count_labels]; intros c c' H Hn Hp.
  - inversion H; subst. split; [assumption|]. split; [assumption|].
    intros k. cbn [existsb].
    split; [auto | intros [Hin|Hf]; [exact Hin | discriminate Hf]].
  - cbn [existsb]. unfold labelled at 1.
    destruct (status_label e) as [l|]; cbn [bind] in *; [|discriminate H].
    destruct (hash_key l) as [k0|]; cbn [bind] in *; [|discriminate H].
    destruct (IH _ _ H (incr_nodup k0 c Hn) (incr_positive k0 c Hp))
      as (Hn' & Hp' & Hk).
    split; [assumption|]. split; [assumption|].
    intros k. split.
    + intros Hin. apply Hk in Hin. rewrite incr_keys in Hin.
      destruct Hin as [[->|Hin]|Hex]; auto.
      * right. now rewrite CounterFacts.hkey_eqb_refl.
      * right. rewrite Hex. apply orb_true_r.
    + intros [Hin|Hex]; apply Hk; rewrite incr_keys; auto.
      apply orb_prop in Hex as [Hex|Hex]; auto.
      apply CounterFacts.hkey_eqb_eq in Hex. auto.
Qed.

End CounterInvariant.

(** X13: a tally has one entry for each label that occurs among the
    records and none for any other; no label has two entries and no entry
    counts zero. *)
Theorem tally_entries_are_the_labels :
  forall (executions : list pyval) (counts : Counter.t),
    status_counts (PList executions) = Ok counts ->
    NoDup (map fst counts)
    /\ Forall (fun kv => 1 <= snd kv) counts
    /\ forall k, In k (map fst counts) <-> existsb (labelled k) executions = true.
Proof.
  intros es counts H. unfold status_counts in H. cbn [Py.iter bind] in H.
  destruct (CounterInvariant.count_labels_invariant es [] counts H)
    as (Hn & Hp & Hk); [constructor | constructor |].
  split; [assumption|]. split; [assumption|].
  intros k. split.
  - intros Hin. apply Hk in Hin as [[]|Hex]. exact Hex.
  - intros Hex. apply Hk. now right.
Qed.

Lemma tally_entries_are_the_labels_witness :
  exists counts,
    status_counts (PList sample_executions) = Ok counts
    /\ NoDup (map fst counts)
    /\ Forall (fun kv => 1 <= snd kv) counts
    /\ forall k, In k (map fst counts)
                 <-> existsb (labelled k) sample_executions = true.
Proof.
  eexists. split; [reflexivity|].
  apply (tally_entries_are_the_labels sample_executions). reflexivity.
Defined.

(** ** Further properties of the test execution client *)

(** X14: a response object without the [executions] field is returned as
    it is; the tally then runs over its keys, so it is empty for the empty
    object and raises AttributeError for any other. *)
Theorem listing_object_without_executions :
  forall d : list (string * pyval),
    Py.lookup d "executions" = None ->
    zephyr_executions_of (PDict d) = Ok (PDict d)
    /\ status_counts (PDict d)
       = match d with
         | [] => Ok []
         | _ :: _ => Raise AttributeError
         end.
Proof.
  intros d H. split.
  - unfold zephyr_executions_of. cbn [Py.get]. now rewrite H.
  - unfold status_counts. cbn [Py.iter bind].
    destruct d as [|[k v] d]; [reflexivity|].
    cbn [Py.keys existsb]. reflexivity.
Qed.

Lemma listing_object_without_executions_witness :
  Py.lookup [("message", PStr "no results")] "executions" = None
  /\ zephyr_executions_of (PDict [("message", PStr "no results")])
     = Ok (PDict [("message", PStr "no results")])
  /\ status_counts (PDict [("message", PStr "no results")]) = Raise AttributeError.
Proof.
  split; [reflexivity|].
  apply (listing_object_without_executions [("message", PStr "no results")]).
  reflexivity.
Defined.

(** ** Further properties of the rows *)

(** X15: every row that [jira_row] returns has five cells: the link to
    the browse page of the issue key, with the key as its text, the escaped
    summary as a string, then priority, status and assignee. *)
Theorem jira_row_shape :
  forall (repr : pyval -> string) (base : string) (issue : pyval) (row : list pyval),
    jira_row repr base issue = Ok row ->
    exists key summary priority status assignee,
      Py.getitem issue "key" = Ok key
      /\ row = [PStr ("<a href='" ++ base ++ "/browse/" ++ py_str repr key ++ "'>"
                      ++ py_str repr key ++ "</a>");
                PStr summary; priority; status; assignee]
      /\ has_char "<"%char summary = false.
Proof.
  intros repr base issue row. unfold jira_row.
  destruct (Py.getitem issue "fields") as [f|]; cbn [bind]; [|discriminate].
  destruct (Py.getitem issue "key") as [key|]; cbn [bind]; [|discriminate].
  destruct (Py.get f "summary" PNone) as [s|]; cbn [bind]; [|discriminate].
  unfold replace_method.
  destruct (Py.or_ s (PStr Py.empty)) as [| | |text| |]; cbn [bind]; try discriminate.
  destruct (Py.get f "priority" (PDict [])) as [p|]; cbn [bind]; [|discriminate].
  destruct (Py.get p "name" (PStr Py.empty)) as [priority|]; cbn [bind]; [|discriminate].
  destruct (Py.get f "status" (PDict [])) as [st|]; cbn [bind]; [|discriminate].
  destruct (Py.get st "name" (PStr Py.empty)) as [status|]; cbn [bind]; [|discriminate].
  destruct (Py.get f "assignee" (PDict [])) as [a|]; cbn [bind]; [|discriminate].
  destruct (Py.get a "displayName" (PStr em_dash)) as [assignee|]; cbn [bind];
    [|discriminate].
  intros H. inversion H; subst; clear H.
  exists key, (Py.replace "<"%char "&lt;" text), priority, status, assignee.
  split; [reflexivity|]. split.
  - unfold html_link. now rewrite !StringMore.append_assoc.
  - now apply PyFacts.replace_removes.
Qed.

Lemma jira_row_shape_witness :
  exists row key summary priority status assignee,
    jira_row (fun _ => EmptyString) "https://tracker.example" issue_assignee_absent
    = Ok row
    /\ Py.getitem issue_assignee_absent "key" = Ok key
    /\ row = [PStr ("<a href='" ++ "https://tracker.example" ++ "/browse/"
                    ++ py_str (fun _ => EmptyString) key ++ "'>"
                    ++ py_str (fun _ => EmptyString) key ++ "</a>");
              PStr summary; priority; status; assignee]
    /\ has_char "<"%char summary = false.
Proof.
  eexists.
  destruct (jira_row_shape (fun _ => EmptyString) "https://tracker.example"
              issue_assignee_absent _ eq_refl)
    as (key & summary & priority & status & assignee & H).
  exists key, summary, priority, status, assignee.
  split; [reflexivity | exact H].
Defined.

(** X16: an issue that is no JSON object raises TypeError; an object
    without [fields] raises the KeyError of [fields], and one with [fields]
    but without [key] the KeyError of [key], whatever the fields hold. *)
Theorem jira_row_missing_parts :
  forall (repr : pyval -> string) (base : string),
    (forall issue, is_object issue = false ->
                   jira_row repr base issue = Raise TypeError)
    /\ (forall i, Py.lookup i "fields" = None ->
                  jira_row repr base (PDict i) = Raise (KeyError "fields"))
    /\ (forall i f, Py.lookup i "fields" = Some f ->
                    Py.lookup i "key" = None ->
                    jira_row repr base (PDict i) = Raise (KeyError "key")).
Proof.
  intros repr base. repeat apply conj.
  - intros issue H. destruct issue; try discriminate H; reflexivity.
  - intros i H. unfold jira_row. cbn [Py.getitem]. now rewrite H.
  - intros i f Hf Hk. unfold jira_row. cbn [Py.getitem]. now rewrite Hf, Hk.
Qed.

Lemma jira_row_missing_parts_witness :
  jira_row (fun _ => EmptyString) "https://tracker.example" (PStr "CAM-7")
  = Raise TypeError
  /\ jira_row (fun _ => EmptyString) "https://tracker.example"
       (PDict [("key", PStr "CAM-7")]) = Raise (KeyError "fields")
  /\ jira_row (fun _ => EmptyString) "https://tracker.example"
       (PDict [("fields", PNone)]) = Raise (KeyError "key").
Proof.
  destruct (jira_row_missing_parts (fun _ => EmptyString) "https://tracker.example")
    as (H1 & H2 & H3).
  split; [apply H1; reflexivity|].
  split; [apply H2; reflexivity|].
  apply (H3 _ PNone); reflexivity.
Defined.

(** X17: when priority, status or assignee is present and is no JSON
    object (null included), the issue gets no row: [jira_row] raises. *)
Theorem jira_row_needs_objects :
  forall (repr : pyval -> string) (base : string) (issue : pyval)
         (f : list (string * pyval)) (field : string) (v : pyval),
    Py.getitem issue "fields" = Ok (PDict f) ->
    In field ["priority"; "status"; "assignee"] ->
    Py.lookup f field = Some v ->
    is_object v = false ->
    exists err, jira_row repr base issue = Raise err.
Proof.
  intros repr base issue f field v Hf Hin Hv Ho. unfold jira_row.
  rewrite Hf. cbn [bind Py.get].
  destruct (Py.getitem issue "key"); cbn [bind]; [|eauto].
  destruct (replace_method _ _ _); cbn [bind]; [|eauto].
  cbn [In] in Hin.
  destruct Hin as [<-|[<-|[<-|[]]]]; rewrite ?Hv.
  - destruct v; try discriminate Ho; cbn [bind Py.get]; eauto.
  - destruct (Py.lookup f "priority") as [[| | | | |p]|]; cbn [bind Py.get];
      eauto;
      destruct v; try discriminate Ho; cbn [bind Py.get]; eauto.
  - destruct (Py.lookup f "priority") as [[| | | | |p]|]; cbn [bind Py.get];
      eauto;
      destruct (Py.lookup f "status") as [[| | | | |st]|]; cbn [bind Py.get];
      eauto;
      destruct v; try discriminate Ho; cbn [bind Py.get]; eauto.
Qed.

Lemma jira_row_needs_objects_witness :
  exists err,
    jira_row (fun _ => EmptyString) "https://tracker.example"
      (PDict [("key", PStr "CAM-7"); ("fields", PDict [("priority", PNone)])])
    = Raise err.
Proof.
  apply (jira_row_needs_objects (fun _ => EmptyString) "https://tracker.example"
           (PDict [("key", PStr "CAM-7"); ("fields", PDict [("priority", PNone)])])
           [("priority", PNone)] "priority" PNone).
  - reflexivity.
  - cbn [In]. auto.
  - reflexivity.
  - reflexivity.
Defined.

(** X18: in the row of an issue only the summary is escaped: the
    priority, status and assignee cells are the JSON values of their names
    as they are, markup included, with the empty string for an absent
    priority or status name and the em dash for an absent display name. *)
Theorem jira_row_cells :
  forall (repr : pyval -> string) (base : string) (issue : pyval),
    is_issue_record issue = true ->
    exists link,
      jira_row repr base issue
      = Ok [link;
            PStr (Py.replace "<"%char "&lt;" (summary_text issue));
            nested issue "priority" "name" (PStr EmptyString);
            nested issue "status" "name" (PStr EmptyString);
            nested issue "assignee" "displayName" (PStr em_dash)].
Proof.
  intros repr base issue H.
  unfold is_issue_record in H. unfold jira_row, summary_text, nested.
  destruct (Py.getitem issue "fields") as [[| | | | |f]|]; try discriminate.
  destruct (Py.getitem issue "key") as [key|]; try discriminate.
  apply andb_prop in H as [H Ha]. apply andb_prop in H as [H Hst].
  apply andb_prop in H as [Hs Hp].
  unfold object_or_absent in Hp, Hst, Ha.
  cbn [bind Py.get].
  destruct (Py.lookup f "priority") as [[| | | | |p]|]; try discriminate;
    destruct (Py.lookup f "status") as [[| | | | |st]|]; try discriminate;
    destruct (Py.lookup f "assignee") as [[| | | | |a]|]; try discriminate;
    destruct (Py.lookup f "summary") as [[| | |s| |]|]; try discriminate;
    unfold Py.or_; cbn [Py.truthy];
    try (destruct (String.eqb s Py.empty) eqn:Es;
         [apply String.eqb_eq in Es; subst s|]);
    cbn [negb replace_method bind Py.get Py.lookup];
    eexists; reflexivity.
Qed.

Lemma jira_row_cells_witness :
  is_issue_record issue_with_markup = true
  /\ exists link,
       jira_row (fun _ => EmptyString) "https://tracker.example" issue_with_markup
       = Ok [link; PStr "x"; PStr EmptyString; PStr "<b>Open</b>"; PStr "Ann & Bob"].
Proof.
  split; [reflexivity|].
  apply (jira_row_cells (fun _ => EmptyString) "https://tracker.example"
           issue_with_markup).
  reflexivity.
Defined.

(** X19: the rows of a list of issues are the rows of its issues, one
    for one and in order; if any issue has no row there are no rows at
    all. *)
Theorem jira_rows_all_or_nothing :
  forall (repr : pyval -> string) (base : string) (issues : list pyval)
         (rows : list (list pyval)),
    jira_rows repr base (PList issues) = Ok rows
    <-> Forall2 (fun issue row => jira_row repr base issue = Ok row) issues rows.
Proof.
  intros repr base issues. unfold jira_rows. cbn [Py.iter bind].
  induction issues as [|issue issues IH]; intros rows; cbn [mapM].
  - split.
    + intros H. inversion H. constructor.
    + intros H. inversion H. reflexivity.
  - split.
    + destruct (jira_row repr base issue) as [row|] eqn:Er; cbn [bind];
        [|discriminate].
      destruct (mapM (jira_row repr base) issues) as [rs|] eqn:Em; cbn [bind];
        [|discriminate].
      intros H. inversion H; subst. constructor; [exact Er|]. now apply IH.
    + intros H. inversion H as [|? row ? rs Hr Hrs]; subst.
      rewrite Hr. cbn [bind]. apply IH in Hrs. rewrite Hrs. reflexivity.
Qed.

Lemma jira_rows_all_or_nothing_witness :
  exists rows,
    jira_rows (fun _ => EmptyString) "https://tracker.example"
      (PList [issue_assignee_absent; issue_with_markup]) = Ok rows
    /\ List.length rows = 2.
Proof.
  eexists. split.
  - apply (jira_rows_all_or_nothing (fun _ => EmptyString) "https://tracker.example"
             [issue_assignee_absent; issue_with_markup]).
    constructor; [reflexivity|]. constructor; [reflexivity|]. constructor.
  - reflexivity.
Defined.

(** ** Further properties of the report *)

Module ReportFacts.

Lemma html_body_inv (repr : pyval -> string) (cfg : config)
    (today start_iso end_iso : string) (executions : pyval) (counts : Counter.t)
    (defects blockers : pyval) (html : string) :
  html_body repr cfg today start_iso end_iso executions counts defects blockers
  = Ok html ->
  exists n defect_rows blocker_rows,
    Py.len executions = Ok n
    /\ jira_rows repr (JIRA_BASE cfg) defects = Ok defect_rows
    /\ jira_rows repr (JIRA_BASE cfg) blockers = Ok blocker_rows.
Proof.
  unfold html_body.
  destruct (Py.len executions) as [n|]; cbn [bind]; [|discriminate].
  destruct (Py.len defects); cbn [bind]; [|discriminate].
  destruct (jira_rows repr (JIRA_BASE cfg) defects) as [dr|]; cbn [bind];
    [|discriminate].
  destruct (Py.len blockers); cbn [bind]; [|discriminate].
  destruct (jira_rows repr (JIRA_BASE cfg) blockers) as [br|]; cbn [bind];
    [|discriminate].
  intros _. exists n, dr, br. auto.
Qed.

(** What can be iterated has a length. *)
Lemma rows_have_len (repr : pyval -> string) (base : string) (issues : pyval)
    (rows : list (list pyval)) :
  jira_rows repr base issues = Ok rows -> exists n, Py.len issues = Ok n.
Proof.
  unfold jira_rows. destruct issues; cbn [Py.iter bind Py.len];
    try discriminate; eauto.
Qed.

Lemma unassigned_no_row (repr : pyval -> string) (base : string) (issue : pyval) :
  unassigned issue = true -> forall row, jira_row repr base issue <> Ok row.
Proof.
  unfold unassigned.
  destruct (Py.getitem issue "fields") as [[| | | | |f]|] eqn:Ef; try discriminate.
  destruct (Py.lookup f "assignee") as [[| | | | |]|] eqn:Ea; try discriminate.
  intros _. now apply (jira_row_assignee_null repr base issue f).
Qed.

Lemma unassigned_no_rows (repr : pyval -> string) (base : string)
    (issues : list pyval) :
  existsb unassigned issues = true ->
  forall rows, jira_rows repr base (PList issues) <> Ok rows.
Proof.
  unfold jira_rows. cbn [Py.iter bind].
  induction issues as [|issue issues IH]; cbn [existsb mapM]; [discriminate|].
  intros H rows.
  destruct (jira_row repr base issue) as [row|] eqn:Er; cbn [bind]; [|discriminate].
  destruct (unassigned issue) eqn:Eu.
  - exfalso. exact (unassigned_no_row repr base issue Eu row Er).
  - cbn [orb] in H.
    destruct (mapM (jira_row repr base) issues) as [rs|] eqn:Em; cbn [bind];
      [|discriminate].
    exfalso. exact (IH H rs eq_refl).
Qed.

End ReportFacts.

(** X20: the report is rendered exactly when the executions have a length
    and every issue of both lists has a row. *)
Theorem html_body_renders_iff :
  forall (repr : pyval -> string) (cfg : config) (today start_iso end_iso : string)
         (executions : pyval) (counts : Counter.t) (defects blockers : pyval),
    (exists html,
        html_body repr cfg today start_iso end_iso executions counts defects blockers
        = Ok html)
    <-> ((exists n, Py.len executions = Ok n)
         /\ (exists rows, jira_rows repr (JIRA_BASE cfg) defects = Ok rows)
         /\ (exists rows, jira_rows repr (JIRA_BASE cfg) blockers = Ok rows)).
Proof.
  intros repr cfg today start_iso end_iso executions counts defects blockers. split.
  - intros (html & H).
    destruct (ReportFacts.html_body_inv _ _ _ _ _ _ _ _ _ _ H) as (n & dr & br & H1 & H2 & H3).
    eauto 8.
  - intros ((n & Hn) & (dr & Hd) & (br & Hb)).
    destruct (ReportFacts.rows_have_len _ _ _ _ Hd) as (nd & Hnd).
    destruct (ReportFacts.rows_have_len _ _ _ _ Hb) as (nb & Hnb).
    unfold html_body. rewrite Hn, Hnd, Hd, Hnb, Hb. cbn [bind]. eauto.
Qed.

Lemma html_body_renders_iff_witness :
  exists html,
    html_body (fun _ => EmptyString) (sample_config "a@x.com") "2024-01-02"
      "2024-01-02T00:00:00Z" "2024-01-02T23:59:59Z" (PList sample_executions) []
      (PList [issue_assignee_absent]) (PList []) = Ok html.
Proof.
  apply (html_body_renders_iff (fun _ => EmptyString) (sample_config "a@x.com")
           "2024-01-02" "2024-01-02T00:00:00Z" "2024-01-02T23:59:59Z"
           (PList sample_executions) [] (PList [issue_assignee_absent]) (PList [])).
  split; [eexists; reflexivity|]. split; eexists; reflexivity.
Defined.

(** X21: when the answer to the first search lists an unassigned issue
    (assignee null), the run raises and no mail session is started:
    one such issue withholds the whole report. *)
Theorem unassigned_issue_withholds_report :
  forall (repr : pyval -> string) (u : beyond) (env : environ) (today : date) (net : network)
         (issues : list pyval),
    (forall ev, is_post ev = true ->
                net [] ev = Ok (PDict [("issues", PList issues)])) ->
    existsb unassigned issues = true ->
    (exists err, fst (run repr u env today net) = Raise err)
    /\ existsb is_smtp (snd (run repr u env today net)) = false.
Proof.
  intros repr u env today net issues Hnet Hun.
  RunFacts.run_cases env net; RunFacts.trace_eval;
    try (split; [eexists; reflexivity | reflexivity]);
    exfalso;
    match goal with
    | E : net [] ?p = Ok ?d, G : Py.get ?d _ _ = Ok ?i,
      H : html_body _ _ _ _ _ _ _ ?i _ = Ok _ |- _ =>
        rewrite (Hnet p eq_refl) in E; inversion E; subst d;
        cbn in G; inversion G; subst i;
        destruct (ReportFacts.html_body_inv _ _ _ _ _ _ _ _ _ _ H)
          as (? & dr & ? & _ & Hd & _);
        exact (ReportFacts.unassigned_no_rows _ _ _ Hun dr Hd)
    end.
Qed.

Lemma unassigned_issue_withholds_report_witness :
  (forall ev, is_post ev = true ->
              unassigned_network [] ev
              = Ok (PDict [("issues", PList [issue_assignee_null])]))
  /\ existsb unassigned [issue_assignee_null] = true
  /\ (exists err,
         fst (run (fun _ => EmptyString) sample_beyond sample_env sample_date unassigned_network)
         = Raise err)
  /\ existsb is_smtp
       (snd (run (fun _ => EmptyString) sample_beyond sample_env sample_date unassigned_network))
     = false.
Proof.
  assert (H : forall ev, is_post ev = true ->
                         unassigned_network [] ev
                         = Ok (PDict [("issues", PList [issue_assignee_null])])).
  { intros ev Hev. destruct ev; try discriminate Hev. reflexivity. }
  split; [exact H|]. split; [reflexivity|].
  apply (unassigned_issue_withholds_report (fun _ => EmptyString) sample_beyond sample_env
           sample_date unassigned_network [issue_assignee_null] H).
  reflexivity.
Defined.

(** ** Further properties of the table *)

Module SkeletonFacts.

Lemma plain_scan (t : string) :
  plain t = true -> scan None t = ([], None).
Proof.
  unfold plain. induction t as [|c t IH]; cbn [has_char scan]; [reflexivity|].
  destruct (Ascii.eqb c "<"%char); cbn [orb negb]; [discriminate | exact IH].
Qed.

Lemma plain_tags (t : string) : plain t = true -> tags t = [].
Proof. intros H. unfold tags. now rewrite plain_scan. Qed.

Lemma plain_balanced (t : string) : plain t = true -> balanced t = true.
Proof. intros H. unfold balanced. now rewrite plain_scan. Qed.

(** The tags of a join of balanced texts. *)
Lemma join_tags (l : list string) :
  Forall (fun t => balanced t = true) l ->
  balanced (Py.join l) = true
  /\ tags (Py.join l) = List.concat (map tags l).
Proof.
  unfold Py.join. induction l as [|t l IH]; intros H; [split; reflexivity|].
  inversion H as [|? ? Ht Hl]; subst. destruct (IH Hl) as [Hb Htags].
  assert (E : String.concat EmptyString (t :: l)
              = t ++ String.concat EmptyString l).
  { cbn [String.concat]. destruct l; [now rewrite PyFacts.append_empty_r | reflexivity]. }
  rewrite E. split.
  - now apply TableFacts.balanced_append.
  - rewrite TableFacts.tags_append by exact Ht. cbn [map List.concat]. now rewrite Htags.
Qed.

Lemma wrapped_tags (open close t : string) :
  balanced open = true -> plain t = true -> balanced close = true ->
  balanced (open ++ t ++ close) = true
  /\ tags (open ++ t ++ close) = (tags open ++ tags close)%list.
Proof.
  intros Ho Ht Hc. split.
  - apply TableFacts.balanced_append; [exact Ho|].
    apply TableFacts.balanced_append; [now apply plain_balanced | exact Hc].
  - rewrite TableFacts.tags_append by exact Ho.
    rewrite TableFacts.tags_append by now apply plain_balanced.
    now rewrite (plain_tags t Ht).
Qed.

Lemma cells_tags (repr : pyval -> string) (open close : string) (cells : list pyval) :
  balanced open = true -> balanced close = true ->
  forallb (fun cell => plain (py_str repr cell)) cells = true ->
  balanced (Py.join (map (fun cell => open ++ py_str repr cell ++ close) cells)) = true
  /\ tags (Py.join (map (fun cell => open ++ py_str repr cell ++ close) cells))
     = List.concat (repeat (tags open ++ tags close)%list (List.length cells)).
Proof.
  intros Ho Hc H.
  assert (Hall : Forall (fun cell => plain (py_str repr cell) = true) cells)
    by (apply Forall_forall; intros x Hx;
        exact (proj1 (forallb_forall _ _) H x Hx)).
  clear H.
  destruct (join_tags (map (fun cell => open ++ py_str repr cell ++ close) cells))
    as [Hb Ht].
  { apply Forall_map. eapply Forall_impl; [|exact Hall].
    intros cell Hp. now apply wrapped_tags. }
  split; [exact Hb|]. rewrite Ht. clear Hb Ht.
  induction Hall as [|cell cells Hp _ IH]; [reflexivity|].
  cbn [map List.concat List.length repeat]. rewrite IH.
  now rewrite (proj2 (wrapped_tags open close _ Ho Hp Hc)).
Qed.

Lemma row_tags (repr : pyval -> string) (row : list pyval) :
  forallb (fun cell => plain (py_str repr cell)) row = true ->
  balanced (tr_row repr row) = true
  /\ tags (tr_row repr row) = row_skeleton (List.length row).
Proof.
  intros H.
  destruct (cells_tags repr "<td>" "</td>" row eq_refl eq_refl H) as [Hb Ht].
  unfold tr_row, row_skeleton. split.
  - apply (TableFacts.balanced_append "<tr>"); [reflexivity|].
    apply TableFacts.balanced_append; [exact Hb | reflexivity].
  - rewrite (TableFacts.tags_append "<tr>") by reflexivity.
    rewrite TableFacts.tags_append by exact Hb. rewrite Ht. reflexivity.
Qed.

Lemma rows_tags (repr : pyval -> string) (rows : list (list pyval)) :
  forallb (forallb (fun cell => plain (py_str repr cell))) rows = true ->
  balanced (Py.join (tr_rows repr rows)) = true
  /\ tags (Py.join (tr_rows repr rows))
     = flat_map row_skeleton (map (@List.length pyval) rows).
Proof.
  intros H.
  assert (Hall : Forall (fun row => forallb (fun cell => plain (py_str repr cell)) row
                                    = true) rows)
    by (apply Forall_forall; intros x Hx;
        exact (proj1 (forallb_forall _ _) H x Hx)).
  clear H.
  destruct (join_tags (tr_rows repr rows)) as [Hb Ht].
  { unfold tr_rows. apply Forall_map. eapply Forall_impl; [|exact Hall].
    intros row Hr. now apply row_tags. }
  split; [exact Hb|]. rewrite Ht. clear Hb Ht. unfold tr_rows.
  induction Hall as [|row rows Hr _ IH]; [reflexivity|].
  cbn [map List.concat flat_map]. rewrite IH.
  now rewrite (proj2 (row_tags repr row Hr)).
Qed.

End SkeletonFacts.

(** X22: when no header and no cell text holds a [<], the markup of the
    table is fixed by the number of headers and the lengths of the rows: one
    [thead] row of [th] cells, then one [tr] of [td] cells for each input
    row, in order, and every tag that is opened is closed. *)
Theorem to_table_skeleton :
  forall (repr : pyval -> string) (rows : list (list pyval)) (headers : list pyval),
    forallb (fun h => plain (py_str repr h)) headers = true ->
    forallb (forallb (fun cell => plain (py_str repr cell))) rows = true ->
    tags (to_table repr rows headers)
    = table_skeleton (List.length headers) (map (@List.length pyval) rows)
    /\ balanced (to_table repr rows headers) = true.
Proof.
  intros repr rows headers Hh Hr.
  destruct (SkeletonFacts.cells_tags repr "<th>" "</th>" headers eq_refl eq_refl Hh)
    as [Hhb Hht].
  destruct (SkeletonFacts.rows_tags repr rows Hr) as [Hrb Hrt].
  unfold to_table, th_cells, table_skeleton. cbv zeta.
  assert (B1 : balanced ("</tbody>" ++ "</table>") = true) by reflexivity.
  assert (B2 : balanced ("<tbody>" ++ Py.join (tr_rows repr rows)
                         ++ "</tbody>" ++ "</table>") = true).
  { apply (TableFacts.balanced_append "<tbody>"); [reflexivity|].
    now apply TableFacts.balanced_append. }
  assert (B3 : balanced ("<thead><tr>"
                         ++ Py.join (map (fun h => "<th>" ++ py_str repr h ++ "</th>")
                                         headers)
                         ++ "</tr></thead>"
                         ++ "<tbody>" ++ Py.join (tr_rows repr rows)
                         ++ "</tbody>" ++ "</table>") = true).
  { apply (TableFacts.balanced_append "<thead><tr>"); [reflexivity|].
    apply TableFacts.balanced_append; [exact Hhb|].
    now apply (TableFacts.balanced_append "</tr></thead>"). }
  split.
  - rewrite (TableFacts.tags_append "<table border='1' cellspacing='0' cellpadding='6'>")
      by reflexivity.
    rewrite (TableFacts.tags_append "<thead><tr>") by reflexivity.
    rewrite TableFacts.tags_append by exact Hhb.
    rewrite (TableFacts.tags_append "</tr></thead>") by reflexivity.
    rewrite (TableFacts.tags_append "<tbody>") by reflexivity.
    rewrite TableFacts.tags_append by exact Hrb.
    rewrite Hht, Hrt. reflexivity.
  - now apply (TableFacts.balanced_append
                 "<table border='1' cellspacing='0' cellpadding='6'>").
Qed.

Lemma to_table_skeleton_witness :
  tags (to_table (fun _ => EmptyString)
          [[PStr "CAM-7"; PStr "a &lt; b"]; [PStr "CAM-9"; PInt 3]]
          [PStr "Key"; PStr "Summary"])
  = table_skeleton 2 [2; 2]
  /\ balanced (to_table (fun _ => EmptyString)
                 [[PStr "CAM-7"; PStr "a &lt; b"]; [PStr "CAM-9"; PInt 3]]
                 [PStr "Key"; PStr "Summary"]) = true.
Proof.
  apply (to_table_skeleton (fun _ => EmptyString)
           [[PStr "CAM-7"; PStr "a &lt; b"]; [PStr "CAM-9"; PInt 3]]
           [PStr "Key"; PStr "Summary"]); reflexivity.
Defined.

(** ** Further properties of the recipients *)

Module RecipientFacts.

Lemma split_cons_piece (sep c : ascii) (s : string) :
  Ascii.eqb c sep = false ->
  Py.split sep (String c s)
  = match Py.split sep s with
    | [] => [String c EmptyString]
    | p :: ps => String c p :: ps
    end.
Proof. intros H. cbn [Py.split]. now rewrite H. Qed.

(** Splitting after a piece without separator. *)
Lemma split_piece_sep (sep : ascii) (a b : string) :
  has_char sep a = false ->
  Py.split sep (a ++ String sep b) = a :: Py.split sep b.
Proof.
  induction a as [|c a IH]; cbn [append has_char]; intros H.
  - cbn [Py.split]. now rewrite Ascii.eqb_refl.
  - apply orb_false_elim in H as [Hc Ha].
    rewrite split_cons_piece by exact Hc. now rewrite (IH Ha).
Qed.

Lemma lstrip_clean (a : string) :
  starts_with_space a = false -> Py.lstrip a = a.
Proof.
  destruct a as [|c a]; cbn [starts_with_space Py.lstrip]; [reflexivity|].
  now intros ->.
Qed.

Lemma rstrip_clean (a : string) :
  ends_with_space a = false -> Py.rstrip a = a.
Proof.
  induction a as [|c a IH]; [reflexivity|].
  cbn [ends_with_space Py.rstrip].
  destruct a as [|c' a'].
  - intros ->. reflexivity.
  - intros H. now rewrite (IH H).
Qed.

Lemma strip_clean (a : string) :
  clean_address a = true -> Py.strip a = a.
Proof.
  unfold clean_address, Py.strip. intros H.
  apply andb_prop in H as [H He]. apply andb_prop in H as [_ Hs].
  apply negb_true_iff in He, Hs.
  rewrite (lstrip_clean a Hs). now apply rstrip_clean.
Qed.

Lemma clean_no_comma (a : string) :
  clean_address a = true -> has_char ","%char a = false.
Proof.
  unfold clean_address. intros H.
  apply andb_prop in H as [H _]. apply andb_prop in H as [H _].
  now apply negb_true_iff in H.
Qed.

(** The pieces of ASCII text are ASCII. *)
Lemma split_ascii (sep : ascii) (s : string) :
  is_ascii s = true -> forallb is_ascii (Py.split sep s) = true.
Proof.
  induction s as [|c s IH]; cbn [is_ascii Py.split]; [reflexivity|].
  intros H. apply andb_prop in H as [Hc Hs]. specialize (IH Hs).
  destruct (Ascii.eqb c sep).
  - cbn [forallb is_ascii]. exact IH.
  - destruct (Py.split sep s) as [|p ps]; cbn [forallb is_ascii] in *.
    + now rewrite Hc.
    + apply andb_prop in IH as [Hp Hps]. now rewrite Hc, Hp, Hps.
Qed.

Lemma concat_ascii (sep : string) (l : list string) :
  is_ascii sep = true -> forallb is_ascii l = true ->
  is_ascii (String.concat sep l) = true.
Proof.
  intros Hsep. induction l as [|a l IH]; [reflexivity|].
  cbn [forallb]. intros H. apply andb_prop in H as [Ha Hl].
  destruct l as [|b l']; [exact Ha|].
  change (String.concat sep (a :: b :: l'))
    with (a ++ sep ++ String.concat sep (b :: l')).
  now rewrite !AsciiFacts.is_ascii_append, Ha, Hsep, (IH Hl).
Qed.

(** On ASCII pieces [str.strip] is the ASCII trimming. *)
Lemma map_strip_ascii (u : beyond) (l : list string) :
  forallb is_ascii l = true -> map (str_strip u) l = map Py.strip l.
Proof.
  induction l as [|a l IH]; [reflexivity|].
  cbn [forallb map]. intros H. apply andb_prop in H as [Ha Hl].
  unfold str_strip at 1. now rewrite Ha, (IH Hl).
Qed.

(** The ASCII trimming of the pieces gives the addresses back. *)
Lemma strip_pieces_round_trip (addresses : list string) :
  addresses <> [] ->
  forallb clean_address addresses = true ->
  map Py.strip (Py.split ","%char (String.concat ", " addresses)) = addresses.
Proof.
  induction addresses as [|a rest IH]; intros Hne H; [contradiction|].
  cbn [forallb] in H. apply andb_prop in H as [Ha Hrest].
  destruct rest as [|b rest'].
  - cbn [String.concat].
    rewrite (PyFacts.split_without_sep _ _ (clean_no_comma a Ha)).
    cbn [map]. now rewrite (strip_clean a Ha).
  - assert (E : String.concat ", " (a :: b :: rest')
                = a ++ String ","%char (String " "%char (String.concat ", " (b :: rest'))))
      by reflexivity.
    rewrite E.
    rewrite (split_piece_sep _ a _ (clean_no_comma a Ha)).
    rewrite split_cons_piece by reflexivity.
    specialize (IH ltac:(discriminate) Hrest).
    pose proof (PyFacts.split_not_nil ","%char (String.concat ", " (b :: rest'))) as Hn.
    destruct (Py.split ","%char (String.concat ", " (b :: rest'))) as [|p ps];
      [contradiction|].
    cbn [map] in *. rewrite (strip_clean a Ha).
    f_equal. rewrite <- IH. f_equal.
Qed.

End RecipientFacts.

(** X23: a list of ASCII addresses written out with a comma and a space
    between them is read back as the same list, when no address holds a
    comma or has whitespace at its ends; the list must not be empty. *)
Theorem recipients_round_trip :
  forall (u : beyond) (addresses : list string),
    addresses <> [] ->
    forallb is_ascii addresses = true ->
    forallb clean_address addresses = true ->
    recipients u (String.concat ", " addresses) = addresses.
Proof.
  intros u addresses Hne Hascii Hclean. unfold recipients.
  rewrite RecipientFacts.map_strip_ascii.
  - now apply RecipientFacts.strip_pieces_round_trip.
  - apply RecipientFacts.split_ascii.
    now apply RecipientFacts.concat_ascii.
Qed.

Lemma recipients_round_trip_witness :
  ["a@x.com"; "b@y.com"; "c d@z.com"] <> []
  /\ forallb is_ascii ["a@x.com"; "b@y.com"; "c d@z.com"] = true
  /\ forallb clean_address ["a@x.com"; "b@y.com"; "c d@z.com"] = true
  /\ recipients sample_beyond (String.concat ", " ["a@x.com"; "b@y.com"; "c d@z.com"])
     = ["a@x.com"; "b@y.com"; "c d@z.com"].
Proof.
  split; [discriminate|]. split; [reflexivity|]. split; [reflexivity|].
  apply (recipients_round_trip sample_beyond ["a@x.com"; "b@y.com"; "c d@z.com"]);
    [discriminate | reflexivity | reflexivity].
Defined.

(** ** Further properties of the listing request *)

Module UrlFacts.

Lemma all_chars_append (p : ascii -> bool) (a b : string) :
  all_chars p (a ++ b) = all_chars p a && all_chars p b.
Proof.
  induction a as [|c a IH]; cbn [append all_chars]; [reflexivity|].
  now rewrite IH, andb_assoc.
Qed.

Lemma percent_quoted (c : ascii) : all_chars quoted_char (Url.percent c) = true.
Proof.
  destruct c as [b0 b1 b2 b3 b4 b5 b6 b7].
  destruct b0, b1, b2, b3, b4, b5, b6, b7; reflexivity.
Qed.

(** [quote_plus] writes unreserved characters, [+] and percent escapes
    only. *)
Lemma quote_plus_quoted (s : string) :
  all_chars quoted_char (Url.quote_plus s) = true.
Proof.
  induction s as [|c s IH]; [reflexivity|]. cbn [Url.quote_plus].
  destruct (Url.unreserved c) eqn:Eu.
  - cbn [all_chars]. unfold quoted_char at 1. now rewrite Eu, IH.
  - destruct (Ascii.eqb c " "%char).
    + cbn [all_chars]. now rewrite IH.
    + now rewrite all_chars_append, percent_quoted, IH.
Qed.

Lemma count_char_append (c : ascii) (a b : string) :
  count_char c (a ++ b) = count_char c a + count_char c b.
Proof.
  induction a as [|x a IH]; cbn [append count_char]; [reflexivity|].
  rewrite IH. lia.
Qed.

Lemma count_char_absent (p : ascii -> bool) (c : ascii) (s : string) :
  p c = false -> all_chars p s = true -> count_char c s = 0.
Proof.
  intros Hc. induction s as [|x s IH]; cbn [all_chars count_char]; [reflexivity|].
  intros H. apply andb_prop in H as [Hx Hs]. rewrite (IH Hs).
  destruct (Ascii.eqb x c) eqn:E; [|reflexivity].
  apply Ascii.eqb_eq in E. subst x. rewrite Hc in Hx. discriminate Hx.
Qed.

Lemma all_chars_weaken (p q : ascii -> bool) (s : string) :
  (forall c, p c = true -> q c = true) ->
  all_chars p s = true -> all_chars q s = true.
Proof.
  intros Hpq. induction s as [|x s IH]; cbn [all_chars]; [reflexivity|].
  intros H. apply andb_prop in H as [Hx Hs]. now rewrite (Hpq x Hx), (IH Hs).
Qed.

Lemma quote_plus_query (s : string) :
  all_chars query_char (Url.quote_plus s) = true.
Proof.
  apply (all_chars_weaken quoted_char); [|apply quote_plus_quoted].
  intros c H. unfold query_char. now rewrite H.
Qed.

Lemma quote_plus_count (c : ascii) (s : string) :
  quoted_char c = false -> count_char c (Url.quote_plus s) = 0.
Proof.
  intros H. apply (count_char_absent quoted_char); [exact H | apply quote_plus_quoted].
Qed.

(** The query of the listing is the quoted one, or no query is written
    because one of its texts has no encoding. *)
Lemma listing_query_cases (u : beyond) (project_key start_iso end_iso : string)
    (limit : Z) :
  Url.urlencode u
    [("projectKey", project_key); ("from", start_iso); ("to", end_iso);
     ("maxResults", Py.str_of_Z limit)]
  = Ok (quoted_query
          [("projectKey", project_key); ("from", start_iso); ("to", end_iso);
           ("maxResults", Py.str_of_Z limit)])
  \/ (Url.urlencode u
        [("projectKey", project_key); ("from", start_iso); ("to", end_iso);
         ("maxResults", Py.str_of_Z limit)]
      = Raise UnicodeEncodeError
      /\ is_ascii project_key && is_ascii start_iso && is_ascii end_iso = false).
Proof.
  unfold Url.urlencode. cbn [mapM fst snd bind].
  rewrite (AsciiFacts.quote_plus_ascii u "projectKey" eq_refl).
  rewrite (AsciiFacts.quote_plus_ascii u "from" eq_refl).
  rewrite (AsciiFacts.quote_plus_ascii u "to" eq_refl).
  rewrite (AsciiFacts.quote_plus_ascii u "maxResults" eq_refl).
  rewrite (AsciiFacts.quote_plus_ascii u (Py.str_of_Z limit)
             (AsciiFacts.str_of_Z_ascii limit)).
  unfold Url.quote_plus_str. cbn [bind].
  destruct (is_ascii project_key); cbn [orb andb bind];
    [|destruct (encodable u project_key); cbn [bind]; [|right; split; reflexivity]];
    (destruct (is_ascii start_iso); cbn [orb andb bind];
     [|destruct (encodable u start_iso); cbn [bind]; [|right; split; reflexivity]]);
    (destruct (is_ascii end_iso); cbn [orb andb bind];
     [|destruct (encodable u end_iso); cbn [bind]; [|right; split; reflexivity]]);
    left; reflexivity.
Qed.

Lemma quoted_query_shape (a b c d : string) :
  count_char "&"%char
    (quoted_query [("projectKey", a); ("from", b); ("to", c); ("maxResults", d)]) = 3
  /\ count_char "="%char
       (quoted_query [("projectKey", a); ("from", b); ("to", c); ("maxResults", d)]) = 4
  /\ all_chars query_char
       (quoted_query [("projectKey", a); ("from", b); ("to", c); ("maxResults", d)])
     = true.
Proof.
  unfold quoted_query. cbn [map fst snd String.concat].
  repeat apply conj.
  - rewrite !count_char_append.
    rewrite !quote_plus_count by reflexivity. reflexivity.
  - rewrite !count_char_append.
    rewrite !quote_plus_count by reflexivity. reflexivity.
  - rewrite !all_chars_append.
    rewrite !quote_plus_query. reflexivity.
Qed.

End UrlFacts.

(** X24: the listing is asked for with one GET whose query has exactly
    the four parameters of the source: the text of the project key and of
    the window is quoted, so the query has three [&], four [=] and otherwise
    only unreserved characters, [+] and percent escapes.  The one other
    outcome is that a text that is not ASCII has no encoding: the function
    then raises UnicodeEncodeError and makes no call. *)
Theorem listing_query_is_quoted :
  forall (u : beyond) (token project_key start_iso end_iso : string) (limit : Z)
         (net : network) (tr : list event),
    (exists query,
       Url.urlencode u
         [("projectKey", project_key); ("from", start_iso); ("to", end_iso);
          ("maxResults", Py.str_of_Z limit)] = Ok query
       /\ snd (zephyr_get_test_executions u token project_key start_iso end_iso
                 limit net tr)
          = List.app tr
              [HttpGet (Z_BASE ++ "/testexecutions?" ++ query)
                 [("Authorization", "Bearer " ++ token);
                  ("Accept", "application/json")]]
       /\ count_char "&"%char query = 3
       /\ count_char "="%char query = 4
       /\ all_chars query_char query = true)
    \/ (is_ascii project_key && is_ascii start_iso && is_ascii end_iso = false
        /\ zephyr_get_test_executions u token project_key start_iso end_iso
             limit net tr
           = (Raise UnicodeEncodeError, tr)).
Proof.
  intros u token project_key start_iso end_iso limit net tr.
  unfold zephyr_get_test_executions, iobind, call, lift. cbv zeta.
  destruct (UrlFacts.listing_query_cases u project_key start_iso end_iso limit)
    as [E|[E Hascii]]; rewrite E.
  - left. eexists. split; [reflexivity|]. split.
    + destruct (net tr _); reflexivity.
    + apply UrlFacts.quoted_query_shape.
  - right. split; [exact Hascii | reflexivity].
Qed.

(** ** Exceptions of the calls *)

(** X25: no exception of a call is caught, but for the one that the
    closing of the mail session passes over, QUIT finding the server
    disconnected: when any other call of the run was answered with an
    exception, the run raises, and it raises that very exception when the
    call was the last one made. *)
Theorem no_exception_is_swallowed :
  forall (repr : pyval -> string) (u : beyond) (env : environ) (today : date) (net : network)
         (before : list event) (ev : event) (after : list event) (e : pyerror),
    snd (run repr u env today net) = (before ++ ev :: after)%list ->
    net before ev = Raise e ->
    (ev = SmtpQuit /\ after = [] /\ e = SMTPServerDisconnected)
    \/ exists err,
         fst (run repr u env today net) = Raise err
         /\ (after = [] -> err = e).
Proof.
  intros repr u env today net.
  RunFacts.run_cases env net; intros before ev after e H Hraise;
    TraceFacts.each_position H
      ltac:(first
              [ congruence
              | right; eexists; split; [reflexivity|]; intros; congruence
              | left; repeat apply conj; try reflexivity;
                match goal with
                | Hq : is_disconnected ?x = true |- _ =>
                    apply TraceFacts.disconnected_eq in Hq; congruence
                end ]).
Qed.

Lemma no_exception_is_swallowed_witness :
  exists before after err,
    snd (run (fun _ => EmptyString) sample_beyond sample_env sample_date login_refused_network)
    = (before ++ SmtpLogin "qa@example.com" "app-password" :: after)%list
    /\ login_refused_network before (SmtpLogin "qa@example.com" "app-password")
       = Raise SMTPException
    /\ fst (run (fun _ => EmptyString) sample_beyond sample_env sample_date login_refused_network)
       = Raise err
    /\ (after = [] -> err = SMTPException).
Proof.
  eexists (firstn 5 (snd (run (fun _ => EmptyString) sample_beyond sample_env sample_date
                            login_refused_network))), [SmtpQuit].
  destruct (no_exception_is_swallowed (fun _ => EmptyString) sample_beyond sample_env sample_date
              login_refused_network
              (firstn 5 (snd (run (fun _ => EmptyString) sample_beyond sample_env sample_date
                                login_refused_network)))
              (SmtpLogin "qa@example.com" "app-password") [SmtpQuit] SMTPException
              eq_refl eq_refl) as [(Hev & _)|(err & H1 & H2)]; [discriminate Hev|].
  exists err. split; [reflexivity|]. split; [reflexivity|]. split; assumption.
Defined.
